(** * jarswap: swapping a locally built jar into an ivy cache

    A shallow embedding of [jarswap.py] and the properties of its filename
    parser, its version comparator and its backup / replace / restore
    operations on the cache directory. *)

From Stdlib Require Import ZArith Ascii String List Lia.
From stdpp Require Import gmap strings list.

Local Open Scope string_scope.
Local Open Scope list_scope.
Local Open Scope Z_scope.

(** ** Python strings

    A Python [str] is a [string]; the regular expression engine walks it as
    a list of characters. *)

Definition chars (s : string) : list ascii := list_ascii_of_string s.
Definition str (cs : list ascii) : string := string_of_list_ascii cs.

Definition newline : ascii := "010"%char.

Definition ascii_eqb (a b : ascii) : bool := Ascii.eqb a b.

(** ** Regular expressions ([re])

    The fragment of Python's [re] syntax that the two patterns of the
    program use: single characters, [.], a character set, a greedy star over
    one of these, sequence, alternation, numbered groups and [$]. *)

Module Re.

Inductive charclass : Type :=
| Lit (c : ascii)                          (* a literal, also an escaped one: \. *)
| AnyChar                                  (* .  : anything except a newline *)
| CharSet (ranges : list (ascii * ascii)). (* [0-9.] : a union of ranges *)

Inductive regex : Type :=
| Chr (cc : charclass)
| Star (cc : charclass)                    (* greedy * *)
| Seq (r1 r2 : regex)
| Alt (r1 r2 : regex)                      (* r1|r2, the left one first *)
| Group (n : nat) (r : regex)              (* the n-th parenthesis *)
| EndOfString.                             (* $ *)

Definition in_range (c : ascii) (rg : ascii * ascii) : bool :=
  ((nat_of_ascii (fst rg) <=? nat_of_ascii c)%nat
   && (nat_of_ascii c <=? nat_of_ascii (snd rg))%nat)%bool.

Definition class_matches (cc : charclass) (c : ascii) : bool :=
  match cc with
  | Lit c' => ascii_eqb c c'
  | AnyChar => negb (ascii_eqb c newline)
  | CharSet ranges => existsb (in_range c) ranges
  end.

(** What the groups captured so far. *)
Definition groups : Type := gmap nat (list ascii).

(** One way of matching: the text consumed, the text left, the groups. *)
Definition success : Type := list ascii * list ascii * groups.

(** The ways a greedy star can match a prefix of [s], the longest first:
    the order in which the backtracking matcher tries them. *)
Fixpoint star_matches (cc : charclass) (s : list ascii)
  : list (list ascii * list ascii) :=
  match s with
  | c :: s' =>
      if class_matches cc c
      then map (fun mr => (c :: fst mr, snd mr)) (star_matches cc s') ++ [([], s)]
      else [([], s)]
  | [] => [([], [])]
  end.

(** [$] matches at the end of the string and just before a newline that
    ends the string. *)
Definition at_end (s : list ascii) : bool :=
  match s with
  | [] => true
  | [c] => ascii_eqb c newline
  | _ => false
  end.

(** All the ways [r] matches a prefix of [s], in the order in which the
    backtracking matcher finds them; the matcher returns the first. *)
Fixpoint run (r : regex) (s : list ascii) (g : groups) : list success :=
  match r with
  | Chr cc =>
      match s with
      | c :: s' => if class_matches cc c then [([c], s', g)] else []
      | [] => []
      end
  | Star cc => map (fun mr => (fst mr, snd mr, g)) (star_matches cc s)
  | Seq r1 r2 =>
      flat_map (fun x : success =>
                  map (fun y : success =>
                         (fst (fst x) ++ fst (fst y), snd (fst y), snd y))
                      (run r2 (snd (fst x)) (snd x)))
               (run r1 s g)
  | Alt r1 r2 => run r1 s g ++ run r2 s g
  | Group n r =>
      map (fun x : success => (fst (fst x), snd (fst x), <[n := fst (fst x)]> (snd x)))
          (run r s g)
  | EndOfString => if at_end s then [([], s, g)] else []
  end.

(** A match object: only its groups are used. *)
Record Match : Type := { captured : groups }.

(** [m.groups()] for a pattern with [n] groups. Every group of the
    patterns below takes part in every match, so no entry is [None]. *)
Definition group (m : Match) (n : nat) : string :=
  str (default [] (captured m !! n)).

(** [re.match(pattern, s)]: a match that starts at the first character. *)
Definition match_ (r : regex) (s : string) : option Match :=
  match run r (chars s) ∅ with
  | x :: _ => Some {| captured := snd x |}
  | [] => None
  end.

(** [re.search(pattern, s)]: the first start position that has a match. *)
Fixpoint search_from (r : regex) (s : list ascii) : option Match :=
  match run r s ∅ with
  | x :: _ => Some {| captured := snd x |}
  | [] =>
      match s with
      | [] => None
      | _ :: s' => search_from r s'
      end
  end.

Definition search (r : regex) (s : string) : option Match :=
  search_from r (chars s).

(** A run of literal characters. *)
Fixpoint literal (c : ascii) (cs : list ascii) : regex :=
  match cs with
  | [] => Chr (Lit c)
  | c' :: cs' => Seq (Chr (Lit c)) (literal c' cs')
  end.

End Re.

(** The character set "[0-9.]". *)
Definition version_chars : Re.charclass :=
  Re.CharSet [("0"%char, "9"%char); ("."%char, "."%char)].

(** The literals "\.jar" and "\.jar\.bak". *)
Definition dot_jar : Re.regex := Re.literal "."%char (chars "jar").
Definition dot_jar_bak : Re.regex := Re.literal "."%char (chars "jar.bak").

(** The pattern of [JarFileFactory._parse_filename] and of
    [JarFile._parse_filename]: group 1 is [.*], then [-], group 2 is
    [[0-9.]*], group 3 is [\.jar|\.jar\.bak], then [$]. *)
Definition jar_pattern : Re.regex :=
  Re.Seq (Re.Group 1 (Re.Star Re.AnyChar))
    (Re.Seq (Re.Chr (Re.Lit "-"%char))
       (Re.Seq (Re.Group 2 (Re.Star version_chars))
          (Re.Seq (Re.Group 3 (Re.Alt dot_jar dot_jar_bak))
             Re.EndOfString))).

(** The pattern of [get_latest_build_jar]: group 1 is [.*], then [-],
    group 2 is [[0-9.]*], then [\.jar$]. *)
Definition build_pattern : Re.regex :=
  Re.Seq (Re.Group 1 (Re.Star Re.AnyChar))
    (Re.Seq (Re.Chr (Re.Lit "-"%char))
       (Re.Seq (Re.Group 2 (Re.Star version_chars))
          (Re.Seq dot_jar Re.EndOfString))).


(** ** Exceptions and results *)

Inductive exn : Type :=
| ValueError          (* int() of a string that is no number, max() of nothing *)
| IndexError          (* a list index out of range *)
| TypeError           (* subscripting None *)
| FileNotFoundError
| SameFileError       (* shutil.copy of a file onto itself *)
| SystemExit (code : Z).  (* exit(code) *)

Inductive result (A : Type) : Type :=
| Ok (a : A)
| Raise (e : exn).
Arguments Ok {A} a.
Arguments Raise {A} e.

#[global] Instance result_ret : MRet result := @Ok.
#[global] Instance result_bind : MBind result :=
  fun A B f x => match x with Ok a => f a | Raise e => Raise e end.

(** The status with which the interpreter ends: that of [exit], and 1 after
    an exception that nothing catches. *)
Definition exit_status {A} (r : result A) : Z :=
  match r with
  | Ok _ => 0
  | Raise (SystemExit code) => code
  | Raise _ => 1
  end.

(** ** The world: the file system and the standard output

    A directory is known by its path and holds files only: the jars
    directory of a cache and the build directory are flat. A file is known
    by its directory and its name, which is what [os.path.join(directory,
    name)] denotes for a name without a separator. [listdir_order] is the
    order in which the system enumerates a directory, which nothing in the
    program controls; the program lists a directory before it changes it,
    and a later run is given a world of its own. *)

Record World : Type := {
  fs : gmap string (gmap string string);
  listdir_order : string -> list string;
  stdout : list string
}.

Definition set_fs (w : World) (f : gmap string (gmap string string)) : World :=
  {| fs := f; listdir_order := listdir_order w; stdout := stdout w |}.

(** The enumeration of every directory lists its files, each once. *)
Definition listdir_consistent (w : World) : Prop :=
  forall d files, fs w !! d = Some files ->
    listdir_order w d ≡ₚ elements (dom files).

Definition file_at (f : gmap string (gmap string string)) (p : string * string)
  : option string :=
  f !! fst p ≫= fun files => files !! snd p.

Definition M (A : Type) : Type := World -> result A * World.

#[global] Instance M_ret : MRet M := fun A a w => (Ok a, w).
#[global] Instance M_bind : MBind M :=
  fun A B f m w =>
    match m w with
    | (Ok a, w') => f a w'
    | (Raise e, w') => (Raise e, w')
    end.

Definition raise {A} (e : exn) : M A := fun w => (Raise e, w).
Definition lift {A} (r : result A) : M A := fun w => (r, w).

Definition print (line : string) : M unit :=
  fun w => (Ok tt, {| fs := fs w; listdir_order := listdir_order w;
                      stdout := stdout w ++ [line] |}).

Definition exit {A} (code : Z) : M A := raise (SystemExit code).

Module os.

Definition startswith_sep (s : string) : bool :=
  match s with
  | String c _ => ascii_eqb c "/"%char
  | EmptyString => false
  end.

Fixpoint endswith_sep (s : string) : bool :=
  match s with
  | EmptyString => false
  | String c EmptyString => ascii_eqb c "/"%char
  | String _ s' => endswith_sep s'
  end.

(** [os.path.join(a, b)] (posixpath). *)
Definition path_join (a b : string) : string :=
  if startswith_sep b then b
  else if (String.eqb a "" || endswith_sep a)%bool then a +:+ b
  else a +:+ "/" +:+ b.

Definition path_isdir (d : string) : M bool :=
  fun w => (Ok (bool_decide (is_Some (fs w !! d))), w).

Definition path_isfile (p : string * string) : M bool :=
  fun w => (Ok (bool_decide (is_Some (file_at (fs w) p))), w).

Definition listdir (d : string) : M (list string) :=
  fun w => match fs w !! d with
           | Some _ => (Ok (listdir_order w d), w)
           | None => (Raise FileNotFoundError, w)
           end.

End os.

Module shutil.

Definition write_file (p : string * string) (content : string)
    (f : gmap string (gmap string string)) : gmap string (gmap string string) :=
  match f !! fst p with
  | Some files => <[fst p := <[snd p := content]> files]> f
  | None => f
  end.

Definition remove_file (p : string * string)
    (f : gmap string (gmap string string)) : gmap string (gmap string string) :=
  match f !! fst p with
  | Some files => <[fst p := delete (snd p) files]> f
  | None => f
  end.

(** [shutil.move(src, dst)] of a file: a rename, which replaces [dst]. *)
Definition move (src dst : string * string) : M unit :=
  fun w =>
    match file_at (fs w) src, fs w !! fst dst with
    | Some content, Some _ =>
        (Ok tt, set_fs w (write_file dst content (remove_file src (fs w))))
    | _, _ => (Raise FileNotFoundError, w)
    end.

(** [shutil.copy(src, dst)] of a file: [dst] is written, [src] stays. *)
Definition copy (src dst : string * string) : M unit :=
  fun w =>
    match file_at (fs w) src, fs w !! fst dst with
    | Some content, Some _ =>
        if bool_decide (src = dst) then (Raise SameFileError, w)
        else (Ok tt, set_fs w (write_file dst content (fs w)))
    | _, _ => (Raise FileNotFoundError, w)
    end.

End shutil.

(** ** Built-in functions *)

Module builtins.

(** [s.split(sep)] for a separator of one character: never empty. *)
Fixpoint split (sep : ascii) (s : string) : list string :=
  match s with
  | EmptyString => [EmptyString]
  | String c s' =>
      if ascii_eqb c sep then EmptyString :: split sep s'
      else match split sep s' with
           | h :: t => String c h :: t
           | [] => [String c EmptyString]
           end
  end.

Definition digit_value (c : ascii) : option Z :=
  let n := nat_of_ascii c in
  if ((48 <=? n)%nat && (n <=? 57)%nat)%bool then Some (Z.of_nat n - 48) else None.

Fixpoint int_digits (acc : Z) (s : string) : option Z :=
  match s with
  | EmptyString => Some acc
  | String c s' => d ← digit_value c; int_digits (10 * acc + d) s'
  end.

(** [int(s)] on the strings that reach it: a component of a version, that
    is a possibly empty run of decimal digits. The empty string and
    anything that is not a digit raise [ValueError]. *)
Definition int (s : string) : result Z :=
  match s with
  | EmptyString => Raise ValueError
  | _ => match int_digits 0 s with
         | Some n => Ok n
         | None => Raise ValueError
         end
  end.

(** [max(items)] for objects that define [__lt__] only: [item > maxitem]
    is answered by [maxitem.__lt__(item)]; the first of several greatest
    items wins, and no item at all raises [ValueError]. *)
Fixpoint max_loop {A} (lt : A -> A -> result bool) (maxitem : A) (items : list A)
  : result A :=
  match items with
  | [] => Ok maxitem
  | item :: rest =>
      b ← lt maxitem item;
      max_loop lt (if b : bool then item else maxitem) rest
  end.

Definition max {A} (lt : A -> A -> result bool) (items : list A) : result A :=
  match items with
  | [] => Raise ValueError
  | item :: rest => max_loop lt item rest
  end.

(** [filter(None, items)]: what is not [None] (an object of a class that
    defines neither [__bool__] nor [__len__] is true). *)
Definition filter_None {A} (items : list (option A)) : list A := omap id items.

End builtins.

(** ** class JarFile *)

Module JarFile.

Record t : Type := {
  filename : string;
  basename : string;
  version : string;
  extension : string
}.

(** [matches.groups()] of the search, or [None]. *)
Definition _parse_filename (self_filename : string)
  : option (string * string * string) :=
  match Re.search jar_pattern self_filename with
  | Some matches => Some (Re.group matches 1, Re.group matches 2, Re.group matches 3)
  | None => None
  end.

(** [self._parse_filename()[i]]: subscripting [None] raises. *)
Definition extract_basename (self_filename : string) : result string :=
  match _parse_filename self_filename with
  | Some g => Ok (fst (fst g))
  | None => Raise TypeError
  end.

Definition extract_version (self_filename : string) : result string :=
  match _parse_filename self_filename with
  | Some g => Ok (snd (fst g))
  | None => Raise TypeError
  end.

Definition extract_extension (self_filename : string) : result string :=
  match _parse_filename self_filename with
  | Some g => Ok (snd g)
  | None => Raise TypeError
  end.

(** The constructor keeps the file name and parses it again for the other
    fields; the three parts it is given are not used. *)
Definition __init__ (filename_ basename_ version_ extension_ : string) : result t :=
  b ← extract_basename filename_;
  v ← extract_version filename_;
  e ← extract_extension filename_;
  mret {| filename := filename_; basename := b; version := v; extension := e |}.

(** The loop of [__lt__]. [int] is a function: the second pair of calls,
    in the [return], gives what the first pair gave. *)
Fixpoint lt_loop (counter : nat) (version_components other_version_components : list string)
  : result bool :=
  match version_components with
  | [] => Ok false
  | component :: rest =>
      match other_version_components !! counter with
      | None => Raise IndexError
      | Some other_component =>
          x ← builtins.int component;
          y ← builtins.int other_component;
          if negb (x =? y) then Ok (x <? y)
          else lt_loop (S counter) rest other_version_components
      end
  end.

Definition __lt__ (self other : t) : result bool :=
  let version_components := builtins.split "."%char (version self) in
  let other_version_components := builtins.split "."%char (version other) in
  lt_loop 0 version_components other_version_components.

Definition __str__ (self : t) : string := filename self.

Definition construct_backup_filename (self : t) : string :=
  basename self +:+ "-" +:+ version self +:+ ".jar.bak".

Definition construct_filename (self : t) : string :=
  basename self +:+ "-" +:+ version self +:+ ".jar".

Definition is_backup (self : t) : bool := String.eqb (extension self) ".jar.bak".

(** The text of a path, for the messages. *)
Definition show (p : string * string) : string := os.path_join (fst p) (snd p).

Definition create_backup (self : t) (directory : string) (force : bool) : M unit :=
  exists_ ← os.path_isfile (directory, construct_backup_filename self);
  if (exists_ && negb force)%bool then
    print ("Backup for this project and package already exists. "
           +:+ "Will not create a new backup, overwriting existing jar.")
  else
    let original_path := (directory, filename self) in
    let backup_path := (directory, filename self +:+ ".bak") in
    _ ← print ("Creating backup: " +:+ show backup_path);
    shutil.move original_path backup_path.

Definition restore_from_backup (self : t) (directory : string) : M unit :=
  exists_ ← os.path_isfile (directory, construct_backup_filename self);
  _ ← (if negb exists_ then
         _ ← print "No backup exists for jar: ";
         exit 1
       else mret tt);
  let original_path := (directory, construct_filename self) in
  let backup_path := (directory, construct_backup_filename self) in
  _ ← print ("Replacing current file [" +:+ show original_path
             +:+ "] with backup [" +:+ show backup_path +:+ "]");
  shutil.move backup_path original_path.

Definition copy (self : t) (source destination : string) : M unit :=
  let source_path := (source, filename self) in
  let destination_path := (destination, construct_filename self) in
  _ ← print ("Copying file from " +:+ show source_path
             +:+ " to " +:+ show destination_path);
  shutil.copy source_path destination_path.

(** [latest_jar.basename = ...; latest_jar.version = ...] *)
Definition set_identity (self : t) (basename_ version_ : string) : t :=
  {| filename := filename self; basename := basename_;
     version := version_; extension := extension self |}.

(** The truth value of an instance: the class defines neither [__bool__]
    nor [__len__]. *)
Definition truthy (self : t) : bool := true.

End JarFile.

(** ** class JarFileFactory *)

Module JarFileFactory.

Definition _parse_filename (filename : string) : result (option JarFile.t) :=
  match Re.search jar_pattern filename with
  | Some matches =>
      j ← JarFile.__init__ filename (Re.group matches 1) (Re.group matches 2)
                           (Re.group matches 3);
      mret (Some j)
  | None => mret None
  end.

Definition create_jar_file (filename : string) : result (option JarFile.t) :=
  parsed_filename ← _parse_filename filename;
  match parsed_filename with
  | Some j => mret (Some j)
  | None => mret None
  end.

End JarFileFactory.

(** ** The script *)

Section Script.

(** [os.getcwd()] and [os.path.expanduser('~')] when the script starts. *)
Variable CWD : string.
Variable HOME : string.

Definition IVY_CACHE : string :=
  os.path_join (os.path_join HOME ".ivy2") "cache".

Definition BUILD_DIR : string :=
  os.path_join (os.path_join CWD "build") "libs".

Definition find_latest_jar (package project : string) : M JarFile.t :=
  _ ← print ("Finding latest jar for " +:+ package +:+ "." +:+ project);
  let package_path := os.path_join IVY_CACHE package in
  let project_path := os.path_join package_path project in
  let jar_path := os.path_join project_path "jars" in
  is_package ← os.path_isdir package_path;
  _ ← (if negb is_package
       then print ("Could not find package cache for " +:+ package)
       else mret tt);
  is_project ← os.path_isdir project_path;
  _ ← (if negb is_project
       then print ("Could not find project [" +:+ project +:+ "] in package ["
                   +:+ package +:+ "]")
       else mret tt);
  is_jars ← os.path_isdir jar_path;
  _ ← (if negb is_jars
       then print ("Could not find jars directory within project path: "
                   +:+ project_path)
       else mret tt);
  names ← os.listdir jar_path;
  jars ← lift (mapM JarFileFactory.create_jar_file names);
  lift (builtins.max JarFile.__lt__ (builtins.filter_None jars)).

Definition get_latest_build_jar (build_dir : string) : M JarFile.t :=
  _ ← print ("Searching for latest jar in: " +:+ build_dir);
  names ← os.listdir build_dir;
  let jars := filter (fun file => is_Some (Re.match_ build_pattern file)) names in
  jar_files ← lift (mapM JarFileFactory.create_jar_file jars);
  lift (builtins.max JarFile.__lt__ (builtins.filter_None jar_files)).

Definition create_backup_and_replace
    (cache_dir build_dir package project : string) (force : bool) : M unit :=
  latest_jar ← get_latest_build_jar build_dir;
  _ ← (if negb (JarFile.truthy latest_jar)
       then _ ← print "Could not find latest build."; exit 1
       else mret tt);
  current_jar ← find_latest_jar package project;
  _ ← (if negb (JarFile.truthy current_jar)
       then _ ← print ("Could not find latest jar for " +:+ package +:+ " "
                       +:+ project);
            exit 1
       else mret tt);
  let latest_jar :=
    JarFile.set_identity latest_jar (JarFile.basename current_jar)
                         (JarFile.version current_jar) in
  let source := build_dir in
  let destination :=
    os.path_join (os.path_join (os.path_join cache_dir package) project) "jars" in
  _ ← JarFile.create_backup current_jar destination force;
  JarFile.copy latest_jar source destination.

Definition restore_latest_backup (cache_dir package project : string) : M unit :=
  let destination :=
    os.path_join (os.path_join (os.path_join cache_dir package) project) "jars" in
  latest_jar ← find_latest_jar package project;
  JarFile.restore_from_backup latest_jar destination.

End Script.


(** ** The checks and the entry point *)

Definition is_file (file : string * string) : M bool :=
  check ← os.path_isfile file;
  _ ← (if negb check
       then print ("File -> '" +:+ JarFile.show file +:+ "' not found.")
       else mret tt);
  mret check.

Definition is_directory (directory : string) : M bool :=
  check ← os.path_isdir directory;
  _ ← (if negb check
       then print ("messageDirectory -> '" +:+ directory +:+ "' not found.")
       else mret tt);
  mret check.

(** Check all files and directories exist needed for this script to run. *)
Definition check_files_and_directories (cache_dir : string) : M bool :=
  is_directory cache_dir.

(** The arguments as [argparse] returns them; [--build] and [--cache]
    default to [BUILD_DIR] and [IVY_CACHE]. *)
Module Args.

Record t : Type := {
  package : string;
  project : string;
  force : bool;
  restore : bool;
  build : string;
  cache : string
}.

End Args.

Section Main.

Variable HOME : string.

(** [os.path.expanduser], which reads the environment and the password
    database of the system. *)
Variable expanduser : string -> string.

Definition main (args : Args.t) : M unit :=
  let cache := expanduser (Args.cache args) in
  let build := expanduser (Args.build args) in
  checked ← check_files_and_directories cache;
  _ ← (if negb checked then exit 1 else mret tt);
  checked ← is_directory build;
  _ ← (if negb checked then exit 1 else mret tt);
  if negb (Args.restore args) then
    create_backup_and_replace HOME cache build (Args.package args)
                              (Args.project args) (Args.force args)
  else
    restore_latest_backup HOME cache (Args.package args) (Args.project args).

End Main.

(** ** Notions used in the statements *)

(** The groups of a match of the artifact pattern. *)
Definition groups_of (g1 g2 g3 : list ascii) : Re.groups :=
  <[3%nat := g3]> (<[2%nat := g2]> (<[1%nat := g1]> ∅)).

(** [s] reads [g1], a dash, [g2], [g3] and [rest], each part as the pattern
    of the artifacts wants it. *)
Definition jar_shape (s g1 g2 g3 rest : list ascii) : Prop :=
  s = g1 ++ "-"%char :: g2 ++ g3 ++ rest
  /\ forallb (Re.class_matches Re.AnyChar) g1 = true
  /\ forallb (Re.class_matches version_chars) g2 = true
  /\ (g3 = chars ".jar" \/ g3 = chars ".jar.bak")
  /\ Re.at_end rest = true.

(** A text without a newline. *)
Definition single_line (s : list ascii) : bool :=
  forallb (Re.class_matches Re.AnyChar) s.

(** The artifact that the factory makes of a file name. *)
Definition parsed (name : string) : option JarFile.t :=
  match JarFile._parse_filename name with
  | Some g => Some {| JarFile.filename := name; JarFile.basename := fst (fst g);
                      JarFile.version := snd (fst g); JarFile.extension := snd g |}
  | None => None
  end.

(** Rebuilding the name of an artifact from its parts: the live name of a
    live artifact, the backup name of a backup. *)
Definition reconstruct (j : JarFile.t) : string :=
  if JarFile.is_backup j then JarFile.construct_backup_filename j
  else JarFile.construct_filename j.

(** Parsing [name] and rebuilding the name gives [name] back. *)
Definition roundtrip (name : string) : Prop :=
  forall j, JarFileFactory.create_jar_file name = Ok (Some j) -> reconstruct j = name.

(** A file name of two lines, and one that ends with a newline. *)
Definition two_line_name : string := String "x"%char (String newline "foo-1.2.jar").
Definition newline_ended_name : string := "foo-1.2.jar" +:+ String newline "".

(** A version read as the specification describes it: a sequence of
    non-negative integers separated by dots; [None] when it is not one. *)
Definition component_number (component : string) : option Z :=
  match builtins.int component with
  | Ok n => Some n
  | Raise _ => None
  end.

Definition version_numbers (v : string) : option (list Z) :=
  mapM component_number (builtins.split "."%char v).

(** The order of the specification on versions of equal length: the
    components are compared as integers from the left, and the first pair
    that differs decides. *)
Fixpoint spec_version_lt (xs ys : list Z) : bool :=
  match xs, ys with
  | x :: xs', y :: ys' => if x =? y then spec_version_lt xs' ys' else x <? y
  | _, _ => false
  end.

(** The directory that [find_latest_jar] scans, and the directory in which
    the backup, the installation and the restoration take place. *)
Definition scan_dir (HOME package project : string) : string :=
  os.path_join (os.path_join (os.path_join (IVY_CACHE HOME) package) project) "jars".

Definition destination (cache_dir package project : string) : string :=
  os.path_join (os.path_join (os.path_join cache_dir package) project) "jars".

(** The world with another standard output. *)
Definition with_stdout (w : World) (out : list string) : World :=
  {| fs := fs w; listdir_order := listdir_order w; stdout := out |}.

(** The artifacts of a listing of the cache, and those of a listing of the
    build directory, of which the latest is taken. *)
Definition cache_candidates (names : list string) : list JarFile.t :=
  builtins.filter_None (map parsed names).

Definition build_candidates (names : list string) : list JarFile.t :=
  builtins.filter_None
    (map parsed (filter (fun file => is_Some (Re.match_ build_pattern file)) names)).

(** Worlds for the examples: the directories with their files, enumerated
    in the order in which they are written, and nothing printed yet. *)
Definition world_of (dirs : list (string * list (string * string))) : World :=
  {| fs := list_to_map <$> (list_to_map dirs : gmap string (list (string * string)));
     listdir_order :=
       fun d => default [] (map fst <$> (list_to_map dirs : gmap string _) !! d);
     stdout := [] |}.

Definition home : string := "/home/dev".
Definition default_slot : string := "/home/dev/.ivy2/cache/org.example/foo/jars".
Definition other_slot : string := "/srv/cache/org.example/foo/jars".
Definition build : string := "/work/build/libs".

(** The directories above the two slots. *)
Definition default_parents : list (string * list (string * string)) :=
  [("/home/dev/.ivy2/cache", []); ("/home/dev/.ivy2/cache/org.example", []);
   ("/home/dev/.ivy2/cache/org.example/foo", [])].

Definition other_parents : list (string * list (string * string)) :=
  [("/srv/cache", []); ("/srv/cache/org.example", []);
   ("/srv/cache/org.example/foo", [])].

Definition jar_foo_1_2 : JarFile.t :=
  {| JarFile.filename := "foo-1.2.jar"; JarFile.basename := "foo";
     JarFile.version := "1.2"; JarFile.extension := ".jar" |}.

(** The default slot with a live artifact only; with a live artifact and
    its backup. *)
Definition world_live : World :=
  world_of (default_parents ++ [(default_slot, [("foo-1.2.jar", "old")])]).

Definition world_live_backup : World :=
  world_of (default_parents
            ++ [(default_slot, [("foo-1.2.jar", "current"); ("foo-1.2.jar.bak", "old")])]).

Definition jar_foo_1_3 : JarFile.t :=
  {| JarFile.filename := "foo-1.3.jar"; JarFile.basename := "foo";
     JarFile.version := "1.3"; JarFile.extension := ".jar" |}.

(** The same slots with a build directory that holds a newer build. *)
Definition world_build : World :=
  world_of (default_parents
            ++ [(default_slot, [("foo-1.2.jar", "old")]);
                (build, [("foo-1.3.jar", "new")])]).

Definition world_build_backup : World :=
  world_of (default_parents
            ++ [(default_slot, [("foo-1.2.jar", "current"); ("foo-1.2.jar.bak", "old")]);
                (build, [("foo-1.3.jar", "new")])]).

Definition jar_of_version (v : string) : JarFile.t :=
  {| JarFile.filename := "foo-" +:+ v +:+ ".jar"; JarFile.basename := "foo";
     JarFile.version := v; JarFile.extension := ".jar" |}.

(** An overridden cache root whose slot holds foo-1.2.jar, while the slot of
    the default root holds foo-1.1.jar. *)
Definition world_two_caches : World :=
  world_of (default_parents ++ other_parents
            ++ [(default_slot, [("foo-1.1.jar", "default")]);
                (other_slot, [("foo-1.2.jar", "old")]);
                (build, [("foo-1.3.jar", "new")])]).

(** The same without the default cache. *)
Definition world_other_cache : World :=
  world_of (other_parents
            ++ [(other_slot, [("foo-1.2.jar", "old")]);
                (build, [("foo-1.3.jar", "new")])]).

(** A build directory without an artifact; a cache slot without one. *)
Definition world_empty_build : World :=
  world_of (default_parents
            ++ [(default_slot, [("foo-1.2.jar", "old")]);
                (build, [("README.txt", "notes")])]).

Definition world_empty_cache : World :=
  world_of (default_parents
            ++ [(default_slot, [("ivy.xml", "metadata")]);
                (build, [("foo-1.3.jar", "new")])]).

(** A decimal digit. *)
Definition is_digit (c : ascii) : bool :=
  match builtins.digit_value c with Some _ => true | None => false end.

(** An artifact whose version is a sequence of [n] integers. *)
Definition has_numbers (n : nat) (j : JarFile.t) : Prop :=
  exists xs, version_numbers (JarFile.version j) = Some xs /\ length xs = n.

(** From [w] to [w'] no directory other than [d] has changed. *)
Definition only_changes (d : string) (w w' : World) : Prop :=
  forall d', d' <> d -> fs w' !! d' = fs w !! d'.

Definition jar_foo_1_2_bak : JarFile.t :=
  {| JarFile.filename := "foo-1.2.jar.bak"; JarFile.basename := "foo";
     JarFile.version := "1.2"; JarFile.extension := ".jar.bak" |}.

(** The slot enumerated with the backup first: the scan keeps the backup,
    which the live artifact does not exceed. *)
Definition world_backup_first : World :=
  world_of (default_parents
            ++ [(default_slot, [("foo-1.2.jar.bak", "old"); ("foo-1.2.jar", "current")]);
                (build, [("foo-1.3.jar", "new")])]).

(** The slot after the build has replaced the live artifact. *)
Definition world_replaced : World :=
  world_of (default_parents
            ++ [(default_slot, [("foo-1.2.jar", "new"); ("foo-1.2.jar.bak", "old")]);
                (build, [("foo-1.3.jar", "new")])]).

(** The slot with a backup only. *)
Definition world_backup_only : World :=
  world_of (default_parents ++ [(default_slot, [("foo-1.2.jar.bak", "old")])]).

(** Arguments of a restore with the default directories, the script being
    started in /work. *)
Definition args_default : Args.t :=
  {| Args.package := "org.example"; Args.project := "foo"; Args.force := false;
     Args.restore := true; Args.build := BUILD_DIR "/work";
     Args.cache := IVY_CACHE home |}.




(** * Properties *)

Example ex_search_1 :
  option_map (fun m => (Re.group m 1, Re.group m 2, Re.group m 3))
             (Re.search jar_pattern "foo-bar-1.2.jar.bak")
  = Some ("foo-bar", "1.2", ".jar.bak").
Proof. vm_compute. reflexivity. Qed.

Example ex_join : IVY_CACHE "/home/dev" = "/home/dev/.ivy2/cache".
Proof. reflexivity. Qed.

(** ** Strings and lists of characters *)

Lemma string_app_cons (x : ascii) (a b : string) :
  String x a +:+ b = String x (a +:+ b).
Proof. reflexivity. Qed.

Lemma str_app (a b : list ascii) : str (a ++ b) = str a +:+ str b.
Proof. induction a as [|c a IH]; simpl; [reflexivity | now rewrite IH]. Qed.

Lemma str_chars (s : string) : str (chars s) = s.
Proof. apply string_of_list_ascii_of_string. Qed.

Lemma chars_str (cs : list ascii) : chars (str cs) = cs.
Proof. apply list_ascii_of_string_of_list_ascii. Qed.

Lemma chars_app (a b : string) : chars (a +:+ b) = chars a ++ chars b.
Proof.
  induction a as [|c a IH]; [reflexivity|].
  rewrite string_app_cons. simpl. now rewrite <- IH.
Qed.

Lemma string_app_assoc (a b c : string) : (a +:+ b) +:+ c = a +:+ (b +:+ c).
Proof.
  induction a as [|x a IH]; [reflexivity|].
  rewrite !string_app_cons. now rewrite IH.
Qed.

Lemma string_app_nil_r (a : string) : a +:+ "" = a.
Proof.
  induction a as [|x a IH]; [reflexivity|].
  rewrite string_app_cons. now rewrite IH.
Qed.

Lemma ascii_eqb_eq (a b : ascii) : ascii_eqb a b = true <-> a = b.
Proof. apply Ascii.eqb_eq. Qed.

(** ** The matcher *)

Module ReFacts.
Import Re.

Lemma star_matches_here cc s : In ([], s) (star_matches cc s).
Proof.
  destruct s as [|c s]; simpl; [now left|].
  destruct (class_matches cc c); [|now left].
  apply in_or_app. right. now left.
Qed.

Lemma star_matches_sound cc s m r :
  In (m, r) (star_matches cc s) ->
  s = m ++ r /\ forallb (class_matches cc) m = true.
Proof.
  revert m r. induction s as [|c s IH]; intros m r; simpl.
  - intros [H|[]]. now inversion H.
  - destruct (class_matches cc c) eqn:Hc.
    + intros H. apply in_app_or in H. destruct H as [H|[H|[]]].
      * apply in_map_iff in H. destruct H as [[m' r'] [Heq Hin]].
        simpl in Heq. inversion Heq; subst.
        destruct (IH _ _ Hin) as [-> Hall]. simpl. now rewrite Hc.
      * now inversion H.
    + intros [H|[]]. now inversion H.
Qed.

Lemma star_matches_complete cc m r :
  forallb (class_matches cc) m = true ->
  In (m, r) (star_matches cc (m ++ r)).
Proof.
  induction m as [|c m IH]; simpl; intros H.
  - apply star_matches_here.
  - apply andb_prop in H. destruct H as [Hc Hm]. rewrite Hc.
    apply in_or_app. left. apply in_map_iff.
    exists (m, r). split; [reflexivity | now apply IH].
Qed.

Lemma run_literal c cs s g x :
  In x (run (literal c cs) s g) <->
  exists rest, s = (c :: cs) ++ rest /\ x = (c :: cs, rest, g).
Proof.
  revert c s x. induction cs as [|c' cs IH]; intros c s x; simpl.
  - destruct s as [|a s]; simpl.
    + split; [intros [] | intros [rest [H _]]; discriminate].
    + destruct (ascii_eqb a c) eqn:Ha.
      * apply ascii_eqb_eq in Ha. subst a. split.
        -- intros [H|[]]. exists s. now subst.
        -- intros [rest [H ->]]. inversion H; subst. now left.
      * split; [intros [] |].
        intros [rest [H _]]. inversion H; subst.
        unfold ascii_eqb in Ha. rewrite Ascii.eqb_refl in Ha. discriminate.
  - destruct s as [|a s]; simpl.
    + split; [intros [] | intros [rest [H _]]; discriminate].
    + destruct (ascii_eqb a c) eqn:Ha; simpl.
      * apply ascii_eqb_eq in Ha. subst a. rewrite app_nil_r. split.
        -- intros H. apply in_map_iff in H. destruct H as [y [<- Hy]].
           apply IH in Hy. destruct Hy as [rest [-> ->]]. simpl.
           now exists rest.
        -- intros [rest [H ->]]. inversion H; subst.
           apply in_map_iff. exists (c' :: cs, rest, g). split; [reflexivity|].
           apply IH. now exists rest.
      * split; [intros [] |].
        intros [rest [H _]]. inversion H; subst.
        unfold ascii_eqb in Ha. rewrite Ascii.eqb_refl in Ha. discriminate.
Qed.

Lemma run_Chr cc s g x :
  In x (run (Chr cc) s g) <->
  exists c rest, s = c :: rest /\ class_matches cc c = true /\ x = ([c], rest, g).
Proof.
  simpl. destruct s as [|c s].
  - split; [intros [] | intros (c & rest & H & _); discriminate].
  - destruct (class_matches cc c) eqn:Hc.
    + split.
      * intros [<-|[]]. now exists c, s.
      * intros (c' & rest & H & _ & ->). inversion H; subst. now left.
    + split; [intros [] |].
      intros (c' & rest & H & Hc' & _). inversion H; subst. congruence.
Qed.

Lemma run_Star cc s g x :
  In x (run (Star cc) s g) <->
  exists m rest, s = m ++ rest /\ forallb (class_matches cc) m = true
                 /\ x = (m, rest, g).
Proof.
  simpl. rewrite in_map_iff. split.
  - intros ([m rest] & <- & Hin). apply star_matches_sound in Hin.
    destruct Hin as [-> Hall]. now exists m, rest.
  - intros (m & rest & -> & Hall & ->). exists (m, rest).
    split; [reflexivity | now apply star_matches_complete].
Qed.

Lemma run_Seq r1 r2 s g x :
  In x (run (Seq r1 r2) s g) <->
  exists m1 s1 g1 m2 s2 g2,
    In (m1, s1, g1) (run r1 s g) /\ In (m2, s2, g2) (run r2 s1 g1)
    /\ x = (m1 ++ m2, s2, g2).
Proof.
  simpl. rewrite in_flat_map. split.
  - intros ([[m1 s1] g1] & H1 & H2). apply in_map_iff in H2.
    destruct H2 as ([[m2 s2] g2] & <- & H2). simpl in *.
    now exists m1, s1, g1, m2, s2, g2.
  - intros (m1 & s1 & g1 & m2 & s2 & g2 & H1 & H2 & ->).
    exists (m1, s1, g1). split; [assumption|].
    apply in_map_iff. now exists (m2, s2, g2).
Qed.

Lemma run_Alt r1 r2 s g x :
  In x (run (Alt r1 r2) s g) <-> In x (run r1 s g) \/ In x (run r2 s g).
Proof. simpl. apply in_app_iff. Qed.

Lemma run_Group n r s g x :
  In x (run (Group n r) s g) <->
  exists m rest g', In (m, rest, g') (run r s g) /\ x = (m, rest, <[n := m]> g').
Proof.
  simpl. rewrite in_map_iff. split.
  - intros ([[m rest] g'] & <- & H). now exists m, rest, g'.
  - intros (m & rest & g' & H & ->). now exists (m, rest, g').
Qed.

Lemma run_EndOfString s g x :
  In x (run EndOfString s g) <-> at_end s = true /\ x = ([], s, g).
Proof.
  simpl. destruct (at_end s).
  - split; [intros [<-|[]]; now split | intros [_ ->]; now left].
  - split; [intros [] | intros [H _]; discriminate].
Qed.

(** Every way of matching consumes a prefix of the text. *)
Lemma run_prefix r : forall s g m rest g',
  In (m, rest, g') (run r s g) -> s = m ++ rest.
Proof.
  induction r as [cc|cc|r1 IH1 r2 IH2|r1 IH1 r2 IH2|n r IH|]; intros s g m rest g' H.
  - apply run_Chr in H. destruct H as (c & rest' & -> & _ & Heq). now inversion Heq.
  - apply run_Star in H. destruct H as (m' & rest' & -> & _ & Heq). now inversion Heq.
  - apply run_Seq in H.
    destruct H as (m1 & s1 & g1 & m2 & s2 & g2 & H1 & H2 & Heq).
    inversion Heq; subst. apply IH1 in H1. apply IH2 in H2. subst.
    now rewrite app_assoc.
  - apply run_Alt in H. destruct H as [H|H]; eauto.
  - apply run_Group in H. destruct H as (m' & rest' & g'' & H & Heq).
    inversion Heq; subst. eauto.
  - apply run_EndOfString in H. destruct H as [_ Heq]. now inversion Heq.
Qed.

End ReFacts.

(** ** The artifact pattern *)



Lemma run_jar_pattern s x :
  In x (Re.run jar_pattern s ∅) <->
  exists g1 g2 g3 rest,
    jar_shape s g1 g2 g3 rest
    /\ x = (g1 ++ "-"%char :: g2 ++ g3, rest, groups_of g1 g2 g3).
Proof.
  unfold jar_pattern, jar_shape, groups_of. split.
  - intros H.
    apply ReFacts.run_Seq in H.
    destruct H as (m1 & s1 & h1 & m2 & s2 & h2 & H1 & H & ->).
    apply ReFacts.run_Group in H1. destruct H1 as (g1 & r1 & h1' & H1 & Heq).
    inversion Heq; subst; clear Heq.
    apply ReFacts.run_Star in H1. destruct H1 as (g1' & r1' & -> & Hg1 & Heq).
    inversion Heq; subst; clear Heq.
    apply ReFacts.run_Seq in H.
    destruct H as (d & s3 & h3 & m3 & s4 & h4 & Hd & H & Heq).
    inversion Heq; subst; clear Heq.
    apply ReFacts.run_Chr in Hd. destruct Hd as (c & r3 & -> & Hc & Heq).
    inversion Heq; subst; clear Heq.
    simpl in Hc. apply ascii_eqb_eq in Hc. subst c.
    apply ReFacts.run_Seq in H.
    destruct H as (m5 & s5 & h5 & m6 & s6 & h6 & H2 & H & Heq).
    inversion Heq; subst; clear Heq.
    apply ReFacts.run_Group in H2. destruct H2 as (g2 & r5 & h5' & H2 & Heq).
    inversion Heq; subst; clear Heq.
    apply ReFacts.run_Star in H2. destruct H2 as (g2' & r5' & -> & Hg2 & Heq).
    inversion Heq; subst; clear Heq.
    apply ReFacts.run_Seq in H.
    destruct H as (m7 & s7 & h7 & m8 & s8 & h8 & H3 & H & Heq).
    inversion Heq; subst; clear Heq.
    apply ReFacts.run_EndOfString in H. destruct H as [Hend Heq].
    inversion Heq; subst; clear Heq.
    apply ReFacts.run_Group in H3. destruct H3 as (g3 & r7 & h7' & H3 & Heq).
    inversion Heq; subst; clear Heq.
    exists g1', g2', g3, r7. rewrite !app_nil_r.
    apply ReFacts.run_Alt in H3.
    assert (Hg3 : (g3 = chars ".jar" \/ g3 = chars ".jar.bak")
                  /\ r5' = g3 ++ r7 /\ h7' = <[2%nat := g2']> (<[1%nat := g1']> ∅)).
    { destruct H3 as [H3|H3]; apply ReFacts.run_literal in H3;
        destruct H3 as (rest & -> & Heq); inversion Heq; subst; auto. }
    destruct Hg3 as (Hg3 & -> & ->).
    repeat split; try assumption.
  - intros (g1 & g2 & g3 & rest & (-> & Hg1 & Hg2 & Hg3 & Hend) & ->).
    apply ReFacts.run_Seq.
    exists g1, ("-"%char :: g2 ++ g3 ++ rest), (<[1%nat := g1]> ∅),
      ("-"%char :: g2 ++ g3), rest, (<[3%nat := g3]> (<[2%nat := g2]> (<[1%nat := g1]> ∅))).
    split; [|split; [|reflexivity]].
    { apply ReFacts.run_Group. exists g1, ("-"%char :: g2 ++ g3 ++ rest), ∅.
      split; [|reflexivity]. apply ReFacts.run_Star. now exists g1, ("-"%char :: g2 ++ g3 ++ rest). }
    apply ReFacts.run_Seq.
    exists ["-"%char], (g2 ++ g3 ++ rest), (<[1%nat := g1]> ∅),
      (g2 ++ g3), rest, (<[3%nat := g3]> (<[2%nat := g2]> (<[1%nat := g1]> ∅))).
    split; [|split; [|reflexivity]].
    { apply ReFacts.run_Chr. exists "-"%char, (g2 ++ g3 ++ rest). now repeat split. }
    apply ReFacts.run_Seq.
    exists g2, (g3 ++ rest), (<[2%nat := g2]> (<[1%nat := g1]> ∅)),
      g3, rest, (<[3%nat := g3]> (<[2%nat := g2]> (<[1%nat := g1]> ∅))).
    split; [|split; [|reflexivity]].
    { apply ReFacts.run_Group. exists g2, (g3 ++ rest), (<[1%nat := g1]> ∅).
      split; [|reflexivity]. apply ReFacts.run_Star. now exists g2, (g3 ++ rest). }
    apply ReFacts.run_Seq.
    exists g3, rest, (<[3%nat := g3]> (<[2%nat := g2]> (<[1%nat := g1]> ∅))),
      [], rest, (<[3%nat := g3]> (<[2%nat := g2]> (<[1%nat := g1]> ∅))).
    split; [|split; [|now rewrite app_nil_r]].
    { apply ReFacts.run_Group. exists g3, rest, (<[2%nat := g2]> (<[1%nat := g1]> ∅)).
      split; [|reflexivity]. apply ReFacts.run_Alt.
      destruct Hg3 as [->| ->]; [left|right]; apply ReFacts.run_literal; now exists rest. }
    apply ReFacts.run_EndOfString. now split.
Qed.

Lemma group_1 g1 g2 g3 : Re.group {| Re.captured := groups_of g1 g2 g3 |} 1 = str g1.
Proof. reflexivity. Qed.

Lemma group_2 g1 g2 g3 : Re.group {| Re.captured := groups_of g1 g2 g3 |} 2 = str g2.
Proof. reflexivity. Qed.

Lemma group_3 g1 g2 g3 : Re.group {| Re.captured := groups_of g1 g2 g3 |} 3 = str g3.
Proof. reflexivity. Qed.

Lemma search_from_eq r s :
  Re.search_from r s =
  match Re.run r s ∅ with
  | x :: _ => Some {| Re.captured := snd x |}
  | [] => match s with [] => None | _ :: s' => Re.search_from r s' end
  end.
Proof. destruct s; reflexivity. Qed.

(** A search that succeeds found the shape somewhere in the text. *)
Lemma search_from_shape s m :
  Re.search_from jar_pattern s = Some m ->
  exists pre s' g1 g2 g3 rest,
    s = pre ++ s' /\ jar_shape s' g1 g2 g3 rest
    /\ m = {| Re.captured := groups_of g1 g2 g3 |}.
Proof.
  induction s as [|c s IH]; rewrite search_from_eq.
  - intros H. vm_compute in H. discriminate H.
  - destruct (Re.run jar_pattern (c :: s) ∅) as [|x l] eqn:Hrun.
    + intros H. destruct (IH H) as (pre & s' & g1 & g2 & g3 & rest & -> & Hs & ->).
      now exists (c :: pre), s', g1, g2, g3, rest.
    + intros [= <-].
      assert (Hin : In x (Re.run jar_pattern (c :: s) ∅)) by (rewrite Hrun; now left).
      apply run_jar_pattern in Hin. destruct Hin as (g1 & g2 & g3 & rest & Hs & ->).
      now exists [], (c :: s), g1, g2, g3, rest.
Qed.


Lemma at_end_single_line rest :
  single_line rest = true -> Re.at_end rest = true -> rest = [].
Proof.
  destruct rest as [|c [|c' rest]]; simpl; try discriminate; [reflexivity|].
  destruct (ascii_eqb c newline); simpl; discriminate.
Qed.

(** In a text of one line the search matches from the first character to
    the last. *)
Lemma search_from_single_line s m :
  single_line s = true ->
  Re.search_from jar_pattern s = Some m ->
  exists g1 g2 g3,
    jar_shape s g1 g2 g3 [] /\ m = {| Re.captured := groups_of g1 g2 g3 |}.
Proof.
  assert (Hhead : forall s x l, single_line s = true ->
            Re.run jar_pattern s ∅ = x :: l ->
            exists g1 g2 g3, jar_shape s g1 g2 g3 []
                             /\ snd x = groups_of g1 g2 g3).
  { intros s0 x l Hline Hrun.
    assert (Hin : In x (Re.run jar_pattern s0 ∅)) by (rewrite Hrun; now left).
    apply run_jar_pattern in Hin. destruct Hin as (g1 & g2 & g3 & rest & Hs & ->).
    exists g1, g2, g3. split; [|reflexivity].
    assert (rest = []) as ->; [|assumption].
    destruct Hs as (-> & _ & _ & _ & Hend).
    apply at_end_single_line; [|assumption].
    unfold single_line in *. rewrite forallb_app in Hline.
    apply andb_prop in Hline. destruct Hline as [_ Hline].
    change ("-"%char :: g2 ++ g3 ++ rest) with (["-"%char] ++ g2 ++ g3 ++ rest) in Hline.
    rewrite !forallb_app in Hline.
    apply andb_prop in Hline. destruct Hline as [_ Hline].
    apply andb_prop in Hline. destruct Hline as [_ Hline].
    apply andb_prop in Hline. now destruct Hline. }
  induction s as [|c s IH]; rewrite search_from_eq; intros Hline.
  - intros H. vm_compute in H. discriminate H.
  - destruct (Re.run jar_pattern (c :: s) ∅) as [|x l] eqn:Hrun.
    + intros H. exfalso.
      apply andb_prop in Hline. destruct Hline as [Hc Hline].
      destruct (IH Hline H) as (g1 & g2 & g3 & Hs & _).
      destruct Hs as (-> & Hg1 & Hg2 & Hg3 & Hend).
      assert (Hin : In (((c :: g1) ++ "-"%char :: g2 ++ g3), [], groups_of (c :: g1) g2 g3)
                       (Re.run jar_pattern (c :: g1 ++ "-"%char :: g2 ++ g3 ++ []) ∅)).
      { apply run_jar_pattern. exists (c :: g1), g2, g3, [].
        split; [|reflexivity]. repeat split; try assumption.
        simpl. simpl in Hc. now rewrite Hc, Hg1. }
      rewrite Hrun in Hin. destruct Hin.
    + intros [= <-].
      destruct (Hhead (c :: s) x l Hline Hrun) as (g1 & g2 & g3 & Hs & ->).
      now exists g1, g2, g3.
Qed.

(** ** Artifacts *)


(** The factory never raises. *)
Lemma create_jar_file_parsed name :
  JarFileFactory.create_jar_file name = Ok (parsed name).
Proof.
  unfold JarFileFactory.create_jar_file, JarFileFactory._parse_filename, parsed,
    JarFile.__init__, JarFile.extract_basename, JarFile.extract_version,
    JarFile.extract_extension, JarFile._parse_filename.
  destruct (Re.search jar_pattern name); reflexivity.
Qed.

Lemma mapM_create_jar_file names :
  mapM JarFileFactory.create_jar_file names = Ok (map parsed names).
Proof.
  induction names as [|n names IH]; simpl; [reflexivity|].
  rewrite create_jar_file_parsed. simpl. rewrite IH. reflexivity.
Qed.

Lemma str_cons c cs : str (c :: cs) = String c (str cs).
Proof. reflexivity. Qed.

(** What the parser returns for a name of one line. *)
Lemma parsed_single_line name j :
  single_line (chars name) = true ->
  parsed name = Some j ->
  JarFile.filename j = name
  /\ name = JarFile.basename j +:+ "-" +:+ JarFile.version j +:+ JarFile.extension j
  /\ (JarFile.extension j = ".jar" \/ JarFile.extension j = ".jar.bak").
Proof.
  intros Hline. unfold parsed, JarFile._parse_filename, Re.search.
  destruct (Re.search_from jar_pattern (chars name)) as [m|] eqn:Hs; [|discriminate].
  intros [= <-]. simpl.
  destruct (search_from_single_line _ _ Hline Hs) as (g1 & g2 & g3 & Hshape & ->).
  rewrite group_1, group_2, group_3.
  destruct Hshape as (Hname & _ & _ & Hg3 & _).
  split; [reflexivity|]. split.
  - rewrite <- (str_chars name) at 1. rewrite Hname.
    rewrite str_app, str_cons, str_app, str_app. simpl str at 4.
    rewrite string_app_nil_r. reflexivity.
  - destruct Hg3 as [-> | ->]; [left|right]; reflexivity.
Qed.

(** C7, as amended: for every file name of one line that matches the
    artifact pattern, parsing it and rebuilding the name from the parts (the
    live name for the extension .jar, the backup name for .jar.bak) gives
    the file name back. *)
Theorem roundtrip_single_line (name : string) :
  single_line (chars name) = true -> roundtrip name.
Proof.
  intros Hline j Hj. rewrite create_jar_file_parsed in Hj.
  injection Hj as Hj.
  destruct (parsed_single_line _ _ Hline Hj) as (_ & Hname & Hext).
  unfold reconstruct, JarFile.is_backup, JarFile.construct_backup_filename,
    JarFile.construct_filename.
  destruct Hext as [He|He]; rewrite He in *; simpl; now rewrite Hname.
Qed.

Lemma roundtrip_single_line_witness :
  single_line (chars "foo-1.2.jar.bak") = true /\ roundtrip "foo-1.2.jar.bak".
Proof.
  split; [reflexivity|]. apply (roundtrip_single_line "foo-1.2.jar.bak"). reflexivity.
Defined.

(** C7, as stated, fails on a name of two lines: the search starts after
    the newline, the basename loses the first line, and the rebuilt name is
    not the name of the file. The name has the shape basename-version.jar.
    It fails as well on a name that ends with a newline, before which [$]
    matches: the rebuilt name has no newline. *)
Lemma roundtrip_two_lines_fails :
  (exists b v, two_line_name = b +:+ "-" +:+ v +:+ ".jar"
               /\ forallb (Re.class_matches version_chars) (chars v) = true)
  /\ JarFileFactory.create_jar_file two_line_name
     = Ok (Some {| JarFile.filename := two_line_name; JarFile.basename := "foo";
                   JarFile.version := "1.2"; JarFile.extension := ".jar" |})
  /\ ~ roundtrip two_line_name
  /\ JarFileFactory.create_jar_file newline_ended_name
     = Ok (Some {| JarFile.filename := newline_ended_name; JarFile.basename := "foo";
                   JarFile.version := "1.2"; JarFile.extension := ".jar" |})
  /\ ~ roundtrip newline_ended_name.
Proof.
  assert (Hp : JarFileFactory.create_jar_file two_line_name
               = Ok (Some {| JarFile.filename := two_line_name;
                             JarFile.basename := "foo"; JarFile.version := "1.2";
                             JarFile.extension := ".jar" |}))
    by (vm_compute; reflexivity).
  assert (Hq : JarFileFactory.create_jar_file newline_ended_name
               = Ok (Some {| JarFile.filename := newline_ended_name;
                             JarFile.basename := "foo"; JarFile.version := "1.2";
                             JarFile.extension := ".jar" |}))
    by (vm_compute; reflexivity).
  split; [|split; [exact Hp|split; [|split; [exact Hq|]]]].
  - exists (String "x"%char (String newline "foo")), "1.2". split; reflexivity.
  - intros H. specialize (H _ Hp). vm_compute in H. discriminate H.
  - intros H. specialize (H _ Hq). vm_compute in H. discriminate H.
Qed.

(** ** The components that reach [int]

    The version of an artifact is made of digits and dots, so that its
    components are runs of digits: [int] is given nothing else, and raises
    on the empty run only. *)

Lemma version_char_cases c :
  Re.class_matches version_chars c = true -> is_digit c = true \/ c = "."%char.
Proof.
  unfold version_chars, is_digit, builtins.digit_value, Re.class_matches, Re.in_range.
  cbn [existsb fst snd].
  change (nat_of_ascii "0") with 48%nat. change (nat_of_ascii "9") with 57%nat.
  change (nat_of_ascii ".") with 46%nat.
  cbv zeta. remember (nat_of_ascii c) as n eqn:Hn.
  destruct (Nat.leb_spec 48 n), (Nat.leb_spec n 57); cbn [andb orb]; auto;
    destruct (Nat.leb_spec 46 n), (Nat.leb_spec n 46); cbn [andb orb];
    try discriminate; intros _; right;
    assert (H46 : n = 46%nat) by lia;
    rewrite <- (ascii_nat_embedding c), <- Hn, H46; reflexivity.
Qed.

Lemma split_nonempty sep s : builtins.split sep s <> [].
Proof.
  destruct s as [|c s]; simpl; [discriminate|].
  destruct (ascii_eqb c sep); [discriminate|].
  destruct (builtins.split sep s); discriminate.
Qed.

Lemma split_version_components (v : string) :
  forallb (Re.class_matches version_chars) (chars v) = true ->
  Forall (fun component => forallb is_digit (chars component) = true)
         (builtins.split "."%char v).
Proof.
  induction v as [|c v IH]; simpl; intros H.
  - repeat constructor.
  - apply andb_prop in H. destruct H as [Hc Hv]. specialize (IH Hv).
    destruct (ascii_eqb c ".") eqn:Hdot.
    + constructor; [reflexivity | exact IH].
    + destruct (version_char_cases c Hc) as [Hd| ->];
        [|unfold ascii_eqb in Hdot; rewrite Ascii.eqb_refl in Hdot; discriminate].
      destruct (builtins.split "." v) as [|h t] eqn:Hs.
      * repeat constructor. simpl. now rewrite Hd.
      * inversion IH; subst. constructor; [|assumption].
        simpl. now rewrite Hd.
Qed.

Lemma int_digits_defined s : forall acc,
  forallb is_digit (chars s) = true -> exists n, builtins.int_digits acc s = Some n.
Proof.
  induction s as [|c s IH]; intros acc; simpl; intros H; [eauto|].
  apply andb_prop in H. destruct H as [Hc Hs]. unfold is_digit in Hc.
  destruct (builtins.digit_value c) as [d|]; [|discriminate]. simpl. now apply IH.
Qed.

Lemma parsed_version_chars name j :
  parsed name = Some j ->
  forallb (Re.class_matches version_chars) (chars (JarFile.version j)) = true.
Proof.
  unfold parsed, JarFile._parse_filename, Re.search.
  destruct (Re.search_from jar_pattern (chars name)) as [m|] eqn:Hs; [|discriminate].
  intros [= <-]. simpl.
  destruct (search_from_shape _ _ Hs) as (pre & s' & g1 & g2 & g3 & rest & _ & Hsh & ->).
  rewrite group_2, chars_str. now destruct Hsh as (_ & _ & Hg2 & _).
Qed.

(** On a component of the version of an artifact, [int] returns a number
    unless the component is empty. *)
Lemma int_of_version_component name j component :
  parsed name = Some j ->
  In component (builtins.split "."%char (JarFile.version j)) ->
  component = "" \/ exists n, builtins.int component = Ok n.
Proof.
  intros Hp Hin.
  pose proof (split_version_components _ (parsed_version_chars _ _ Hp)) as Hall.
  rewrite Forall_forall in Hall. apply list_elem_of_In in Hin.
  specialize (Hall _ Hin).
  destruct component as [|c cs]; [now left|]. right.
  destruct (int_digits_defined (String c cs) 0 Hall) as [n Hn].
  exists n. unfold builtins.int. now rewrite Hn.
Qed.

(** ** Candidates *)

Lemma In_filter_None {A} (x : A) (items : list (option A)) :
  In x (builtins.filter_None items) <-> In (Some x) items.
Proof.
  unfold builtins.filter_None. rewrite <- !list_elem_of_In, list_elem_of_omap.
  split.
  - intros (o & Ho & Hx). simpl in Hx. now subst.
  - intros H. now exists (Some x).
Qed.

Lemma In_candidates (names : list string) (j : JarFile.t) :
  In j (builtins.filter_None (map parsed names)) <->
  exists name, In name names /\ parsed name = Some j.
Proof.
  rewrite In_filter_None, in_map_iff.
  split; intros (name & H1 & H2); exists name; now split.
Qed.

Lemma parsed_filename name j : parsed name = Some j -> JarFile.filename j = name.
Proof.
  unfold parsed. destruct (JarFile._parse_filename name); [|discriminate].
  now intros [= <-].
Qed.

Lemma In_build_candidates_intro (names : list string) (name : string) (j : JarFile.t) :
  In name names ->
  is_Some (Re.match_ build_pattern name) ->
  parsed name = Some j ->
  In j (build_candidates names).
Proof.
  intros Hin Hm Hp. unfold build_candidates. apply In_candidates.
  exists name. split; [|exact Hp].
  apply list_elem_of_In, list_elem_of_filter. split; [exact Hm|].
  now apply list_elem_of_In.
Qed.

(** C10: the file names foo-.jar and foo-1..2.jar, whose version field is
    empty or has an empty component and so is not a sequence of integers,
    are parsed into artifacts, and these artifacts are among the candidates
    of which the maximum is taken, in the scan of the cache and in the scan
    of the build directory. *)
Theorem malformed_versions_are_candidates (names : list string) (name : string) :
  name = "foo-.jar" \/ name = "foo-1..2.jar" ->
  In name names ->
  exists j jars,
    JarFileFactory.create_jar_file name = Ok (Some j)
    /\ JarFile.filename j = name
    /\ version_numbers (JarFile.version j) = None
    /\ mapM JarFileFactory.create_jar_file names = Ok jars
    /\ In j (builtins.filter_None jars)
    /\ In j (cache_candidates names)
    /\ In j (build_candidates names).
Proof.
  intros Hname Hin.
  assert (Hp : exists j, parsed name = Some j
                         /\ version_numbers (JarFile.version j) = None
                         /\ is_Some (Re.match_ build_pattern name)).
  { destruct Hname as [-> | ->]; eexists; split; [| split | | split];
      try (vm_compute; reflexivity); vm_compute; eauto. }
  destruct Hp as (j & Hj & Hv & Hm).
  exists j, (map parsed names).
  rewrite create_jar_file_parsed, mapM_create_jar_file.
  assert (Hc : In j (cache_candidates names)).
  { apply In_candidates. now exists name. }
  repeat split; try assumption.
  - now rewrite Hj.
  - now apply parsed_filename.
  - now apply In_build_candidates_intro with name.
Qed.

Lemma malformed_versions_are_candidates_witness :
  exists j jars,
    JarFileFactory.create_jar_file "foo-1..2.jar" = Ok (Some j)
    /\ JarFile.filename j = "foo-1..2.jar"
    /\ version_numbers (JarFile.version j) = None
    /\ mapM JarFileFactory.create_jar_file ["bar-1.0.jar"; "foo-1..2.jar"] = Ok jars
    /\ In j (builtins.filter_None jars)
    /\ In j (cache_candidates ["bar-1.0.jar"; "foo-1..2.jar"])
    /\ In j (build_candidates ["bar-1.0.jar"; "foo-1..2.jar"]).
Proof.
  apply (malformed_versions_are_candidates ["bar-1.0.jar"; "foo-1..2.jar"] "foo-1..2.jar").
  - right. reflexivity.
  - simpl. right. left. reflexivity.
Defined.

(** ** The comparator *)

Lemma lt_loop_drop vc : forall k oc,
  JarFile.lt_loop k vc oc = JarFile.lt_loop 0 vc (drop k oc).
Proof.
  induction vc as [|c vc IH]; intros k oc; simpl; [reflexivity|].
  rewrite lookup_drop, Nat.add_0_r.
  destruct (oc !! k) as [o|]; [|reflexivity].
  destruct (builtins.int c) as [x|e]; simpl; [|reflexivity].
  destruct (builtins.int o) as [y|e]; simpl; [|reflexivity].
  destruct (x =? y); simpl; [|reflexivity].
  rewrite (IH (S k) oc), (IH 1%nat (drop k oc)), drop_drop.
  f_equal. f_equal. lia.
Qed.

Lemma component_number_int c n : component_number c = Some n -> builtins.int c = Ok n.
Proof.
  unfold component_number. destruct (builtins.int c); [|discriminate].
  now intros [= ->].
Qed.

(** On versions that are sequences of integers, the first not longer than
    the second, the loop computes the order of the specification. *)
Lemma lt_loop_spec vc : forall oc xs ys,
  mapM component_number vc = Some xs ->
  mapM component_number oc = Some ys ->
  (length xs <= length ys)%nat ->
  JarFile.lt_loop 0 vc oc = Ok (spec_version_lt xs ys).
Proof.
  induction vc as [|c vc IH]; intros oc xs ys Hxs Hys Hlen.
  - simpl in Hxs. injection Hxs as <-. reflexivity.
  - simpl in Hxs.
    destruct (component_number c) as [x|] eqn:Hc; [|discriminate].
    simpl in Hxs. destruct (mapM component_number vc) as [xs'|] eqn:Hvc; [|discriminate].
    simpl in Hxs. injection Hxs as <-.
    destruct oc as [|o oc].
    { simpl in Hys. injection Hys as <-. simpl in Hlen. lia. }
    simpl in Hys.
    destruct (component_number o) as [y|] eqn:Ho; [|discriminate].
    simpl in Hys. destruct (mapM component_number oc) as [ys'|] eqn:Hoc; [|discriminate].
    simpl in Hys. injection Hys as <-.
    simpl. rewrite (component_number_int _ _ Hc), (component_number_int _ _ Ho). simpl.
    destruct (x =? y); simpl; [|reflexivity].
    rewrite lt_loop_drop. simpl. rewrite drop_0.
    apply IH; [reflexivity | assumption | simpl in Hlen; lia].
Qed.

Lemma lt_spec (a b : JarFile.t) (xs ys : list Z) :
  version_numbers (JarFile.version a) = Some xs ->
  version_numbers (JarFile.version b) = Some ys ->
  (length xs <= length ys)%nat ->
  JarFile.__lt__ a b = Ok (spec_version_lt xs ys).
Proof. intros Ha Hb Hlen. unfold JarFile.__lt__. now apply lt_loop_spec. Qed.

Lemma spec_version_lt_irrefl xs : spec_version_lt xs xs = false.
Proof. induction xs as [|x xs IH]; simpl; [reflexivity|]. now rewrite Z.eqb_refl. Qed.

Lemma spec_version_lt_trans xs : forall ys zs,
  spec_version_lt xs ys = true -> spec_version_lt ys zs = true ->
  spec_version_lt xs zs = true.
Proof.
  induction xs as [|x xs IH]; intros [|y ys] [|z zs]; simpl; try discriminate.
  destruct (Z.eqb_spec x y), (Z.eqb_spec y z), (Z.eqb_spec x z);
    subst; try lia; eauto; intros H1 H2;
    apply Z.ltb_lt in H1 || idtac; apply Z.ltb_lt in H2 || idtac;
    try apply Z.ltb_lt; try lia; try assumption.
Qed.

Lemma spec_version_lt_total xs : forall ys,
  length xs = length ys ->
  spec_version_lt xs ys = true \/ spec_version_lt ys xs = true \/ xs = ys.
Proof.
  induction xs as [|x xs IH]; intros [|y ys]; simpl; try discriminate; auto.
  intros [= Hlen].
  destruct (Z.eqb_spec x y) as [->|Hne].
  - rewrite Z.eqb_refl. destruct (IH ys Hlen) as [H|[H| ->]]; auto.
  - destruct (Z.eqb_spec y x) as [->|_]; [contradiction|].
    destruct (Z.ltb_spec x y); [now left|]. right. left. apply Z.ltb_lt. lia.
Qed.

(** The first pair of components that differs decides. *)
Lemma spec_version_lt_first_difference p x y xs ys :
  x <> y -> spec_version_lt (p ++ x :: xs) (p ++ y :: ys) = (x <? y).
Proof.
  intros Hne. induction p as [|z p IH]; simpl.
  - destruct (Z.eqb_spec x y); [contradiction | reflexivity].
  - now rewrite Z.eqb_refl.
Qed.

(** ** The scans *)

Lemma find_latest_jar_eq HOME package project w :
  exists out,
    find_latest_jar HOME package project w =
    (match fs w !! scan_dir HOME package project with
     | Some _ =>
         builtins.max JarFile.__lt__
           (cache_candidates (listdir_order w (scan_dir HOME package project)))
     | None => Raise FileNotFoundError
     end, with_stdout w (stdout w ++ out)).
Proof.
  unfold find_latest_jar, scan_dir, cache_candidates, with_stdout,
    mbind, M_bind, mret, M_ret, print, os.path_isdir, os.listdir, lift.
  simpl.
  repeat match goal with
         | |- context [bool_decide ?P] => destruct (bool_decide P); simpl
         end;
    match goal with
    | |- context [fs w !! ?d] => destruct (fs w !! d); simpl
    end;
    rewrite ?mapM_create_jar_file; simpl;
    rewrite <- ?app_assoc; eexists; reflexivity.
Qed.

Lemma get_latest_build_jar_eq build_dir w :
  get_latest_build_jar build_dir w =
  (match fs w !! build_dir with
   | Some _ => builtins.max JarFile.__lt__ (build_candidates (listdir_order w build_dir))
   | None => Raise FileNotFoundError
   end,
   with_stdout w (stdout w ++ ["Searching for latest jar in: " +:+ build_dir])).
Proof.
  unfold get_latest_build_jar, build_candidates, with_stdout,
    mbind, M_bind, mret, M_ret, print, os.listdir, lift.
  simpl. destruct (fs w !! build_dir); simpl; [|reflexivity].
  rewrite mapM_create_jar_file. reflexivity.
Qed.

(** A scan changes the standard output only. *)
Lemma find_latest_jar_frame HOME package project w r w1 :
  find_latest_jar HOME package project w = (r, w1) ->
  fs w1 = fs w /\ listdir_order w1 = listdir_order w.
Proof.
  destruct (find_latest_jar_eq HOME package project w) as [out ->].
  intros [= _ <-]. split; reflexivity.
Qed.

Lemma get_latest_build_jar_frame build_dir w r w1 :
  get_latest_build_jar build_dir w = (r, w1) ->
  fs w1 = fs w /\ listdir_order w1 = listdir_order w.
Proof.
  rewrite get_latest_build_jar_eq. intros [= _ <-]. split; reflexivity.
Qed.

(** ** Files *)

Lemma file_at_dir f p c : file_at f p = Some c -> is_Some (f !! fst p).
Proof.
  unfold file_at. destruct (f !! fst p); simpl; [eauto | discriminate].
Qed.

Lemma file_at_write_eq f p c :
  is_Some (f !! fst p) -> file_at (shutil.write_file p c f) p = Some c.
Proof.
  intros [files Hf]. unfold shutil.write_file, file_at. rewrite Hf.
  rewrite lookup_insert_eq. simpl. apply lookup_insert_eq.
Qed.

Lemma file_at_write_ne f p q c :
  p <> q -> file_at (shutil.write_file p c f) q = file_at f q.
Proof.
  intros Hne. unfold shutil.write_file, file_at.
  destruct (f !! fst p) as [files|] eqn:Hf; [|reflexivity].
  destruct (decide (fst p = fst q)) as [Heq|Hd].
  - rewrite Heq, lookup_insert_eq. rewrite <- Heq, Hf. simpl.
    apply lookup_insert_ne. intros Hs. apply Hne.
    destruct p, q; simpl in *; congruence.
  - now rewrite lookup_insert_ne.
Qed.

Lemma file_at_remove_eq f p : file_at (shutil.remove_file p f) p = None.
Proof.
  unfold shutil.remove_file, file_at.
  destruct (f !! fst p) as [files|] eqn:Hf.
  - rewrite lookup_insert_eq. simpl. apply lookup_delete_eq.
  - now rewrite Hf.
Qed.

Lemma file_at_remove_ne f p q :
  p <> q -> file_at (shutil.remove_file p f) q = file_at f q.
Proof.
  intros Hne. unfold shutil.remove_file, file_at.
  destruct (f !! fst p) as [files|] eqn:Hf; [|reflexivity].
  destruct (decide (fst p = fst q)) as [Heq|Hd].
  - rewrite Heq, lookup_insert_eq. rewrite <- Heq, Hf. simpl.
    apply lookup_delete_ne. intros Hs. apply Hne.
    destruct p, q; simpl in *; congruence.
  - now rewrite lookup_insert_ne.
Qed.

Lemma remove_file_dir f p d :
  is_Some (shutil.remove_file p f !! d) <-> is_Some (f !! d).
Proof.
  unfold shutil.remove_file.
  destruct (f !! fst p) as [files|] eqn:Hf; [|reflexivity].
  destruct (decide (fst p = d)) as [<-|Hd].
  - rewrite lookup_insert_eq, Hf. split; eauto.
  - now rewrite lookup_insert_ne.
Qed.

(** A live name is never a backup name. *)
Lemma live_name_not_backup_name (a b : JarFile.t) :
  JarFile.construct_filename a <> JarFile.construct_backup_filename b.
Proof.
  unfold JarFile.construct_filename, JarFile.construct_backup_filename. intros H.
  apply (f_equal (fun s => rev (chars s))) in H.
  rewrite !chars_app, !rev_app_distr in H. simpl in H. discriminate H.
Qed.

(** ** Restore *)

Lemma restore_from_backup_missing (j : JarFile.t) (directory : string) (w : World) :
  file_at (fs w) (directory, JarFile.construct_backup_filename j) = None ->
  JarFile.restore_from_backup j directory w =
  (Raise (SystemExit 1), with_stdout w (stdout w ++ ["No backup exists for jar: "])).
Proof.
  intros Hnone.
  unfold JarFile.restore_from_backup, mbind, M_bind, os.path_isfile.
  rewrite Hnone. reflexivity.
Qed.

Lemma restore_from_backup_present (j : JarFile.t) (directory : string) (w : World) bak :
  file_at (fs w) (directory, JarFile.construct_backup_filename j) = Some bak ->
  exists out,
    JarFile.restore_from_backup j directory w =
    (Ok tt,
     {| fs := shutil.write_file (directory, JarFile.construct_filename j) bak
                (shutil.remove_file (directory, JarFile.construct_backup_filename j)
                                    (fs w));
        listdir_order := listdir_order w;
        stdout := stdout w ++ out |}).
Proof.
  intros Hbak. destruct (file_at_dir _ _ _ Hbak) as [files Hdir]. simpl in Hdir.
  unfold JarFile.restore_from_backup, mbind, M_bind, mret, M_ret, os.path_isfile,
    print, shutil.move, set_fs.
  rewrite Hbak. simpl. rewrite Hbak, Hdir. eexists. reflexivity.
Qed.

Lemma restore_latest_backup_missing
    (HOME cache_dir package project : string) (w w1 : World) (latest_jar : JarFile.t) :
  find_latest_jar HOME package project w = (Ok latest_jar, w1) ->
  file_at (fs w) (destination cache_dir package project,
                  JarFile.construct_backup_filename latest_jar) = None ->
  restore_latest_backup HOME cache_dir package project w =
  (Raise (SystemExit 1), with_stdout w1 (stdout w1 ++ ["No backup exists for jar: "])).
Proof.
  intros Hfind Hnone.
  destruct (find_latest_jar_frame _ _ _ _ _ _ Hfind) as [Hfs Hord].
  unfold restore_latest_backup, mbind, M_bind. rewrite Hfind.
  fold (destination cache_dir package project).
  apply restore_from_backup_missing. now rewrite Hfs.
Qed.

(** C9: in restore mode, when the destination holds no backup file for the
    identity of the latest cache artifact, the operation prints that no
    backup exists and exits with status 1, and the file system is as it
    was. *)
Theorem restore_without_backup
    (HOME cache_dir package project : string) (w w1 : World) (latest_jar : JarFile.t) :
  find_latest_jar HOME package project w = (Ok latest_jar, w1) ->
  file_at (fs w) (destination cache_dir package project,
                  JarFile.construct_backup_filename latest_jar) = None ->
  exists w',
    restore_latest_backup HOME cache_dir package project w = (Raise (SystemExit 1), w')
    /\ exit_status (fst (restore_latest_backup HOME cache_dir package project w)) = 1
    /\ fs w' = fs w
    /\ stdout w' = stdout w1 ++ ["No backup exists for jar: "].
Proof.
  intros Hfind Hnone.
  rewrite (restore_latest_backup_missing _ _ _ _ _ _ _ Hfind Hnone).
  eexists. repeat split.
  now destruct (find_latest_jar_frame _ _ _ _ _ _ Hfind).
Qed.

Lemma restore_without_backup_witness :
  exists w',
    restore_latest_backup home (IVY_CACHE home) "org.example" "foo" world_live
    = (Raise (SystemExit 1), w')
    /\ exit_status (fst (restore_latest_backup home (IVY_CACHE home)
                           "org.example" "foo" world_live)) = 1
    /\ fs w' = fs world_live
    /\ stdout w' = stdout (snd (find_latest_jar home "org.example" "foo" world_live))
                   ++ ["No backup exists for jar: "].
Proof.
  apply (restore_without_backup home (IVY_CACHE home) "org.example" "foo" world_live
           (snd (find_latest_jar home "org.example" "foo" world_live)) jar_foo_1_2).
  - vm_compute. reflexivity.
  - vm_compute. reflexivity.
Defined.

(** C3: in restore mode, when the live file and the backup file of the
    latest cache artifact both exist, the operation succeeds; afterwards the
    live name holds what the backup held, the backup file is gone, and no
    other file has changed. If that backup was the only one in the
    directory, a second restore, whichever artifact it finds to be the
    latest, prints that no backup exists and exits with status 1, leaving
    the files as they are. *)
Theorem restore_consumes_backup
    (HOME cache_dir package project : string) (w w1 : World) (latest_jar : JarFile.t)
    (bak : string) :
  find_latest_jar HOME package project w = (Ok latest_jar, w1) ->
  is_Some (file_at (fs w) (destination cache_dir package project,
                           JarFile.construct_filename latest_jar)) ->
  file_at (fs w) (destination cache_dir package project,
                  JarFile.construct_backup_filename latest_jar) = Some bak ->
  exists w',
    restore_latest_backup HOME cache_dir package project w = (Ok tt, w')
    /\ file_at (fs w') (destination cache_dir package project,
                        JarFile.construct_filename latest_jar) = Some bak
    /\ file_at (fs w') (destination cache_dir package project,
                        JarFile.construct_backup_filename latest_jar) = None
    /\ (forall p,
          p <> (destination cache_dir package project,
                JarFile.construct_filename latest_jar) ->
          p <> (destination cache_dir package project,
                JarFile.construct_backup_filename latest_jar) ->
          file_at (fs w') p = file_at (fs w) p)
    /\ ((forall j,
           is_Some (file_at (fs w) (destination cache_dir package project,
                                    JarFile.construct_backup_filename j)) ->
           JarFile.construct_backup_filename j
           = JarFile.construct_backup_filename latest_jar) ->
        forall (w2 w3 : World) (latest2 : JarFile.t),
          fs w2 = fs w' ->
          find_latest_jar HOME package project w2 = (Ok latest2, w3) ->
          exists w'',
            restore_latest_backup HOME cache_dir package project w2
            = (Raise (SystemExit 1), w'')
            /\ fs w'' = fs w2
            /\ stdout w'' = stdout w3 ++ ["No backup exists for jar: "]).
Proof.
  intros Hfind Hlive Hbak.
  destruct (find_latest_jar_frame _ _ _ _ _ _ Hfind) as [Hfs Hord].
  set (dest := destination cache_dir package project) in *.
  assert (Hbak1 : file_at (fs w1) (dest, JarFile.construct_backup_filename latest_jar)
                  = Some bak) by now rewrite Hfs.
  destruct (restore_from_backup_present latest_jar dest w1 bak Hbak1) as [out Hrun].
  eexists. split.
  { unfold restore_latest_backup, mbind, M_bind. rewrite Hfind.
    fold (destination cache_dir package project). fold dest. exact Hrun. }
  simpl. rewrite Hfs.
  assert (Hne : (dest, JarFile.construct_filename latest_jar)
                <> (dest, JarFile.construct_backup_filename latest_jar)).
  { intros [= H]. now apply live_name_not_backup_name in H. }
  assert (Hdir : is_Some (shutil.remove_file
                            (dest, JarFile.construct_backup_filename latest_jar) (fs w)
                          !! dest)).
  { apply remove_file_dir. apply (file_at_dir _ _ _ Hbak). }
  split; [now apply file_at_write_eq|].
  split; [rewrite file_at_write_ne by exact Hne; apply file_at_remove_eq|].
  split.
  { intros p Hp1 Hp2. rewrite file_at_write_ne by congruence.
    apply file_at_remove_ne. congruence. }
  intros Honly w2 w3 latest2 Hw2 Hfind2.
  assert (Hnone : file_at (fs w2) (dest, JarFile.construct_backup_filename latest2) = None).
  { rewrite Hw2.
    rewrite file_at_write_ne
      by (intros [= H]; now apply live_name_not_backup_name in H).
    destruct (decide (JarFile.construct_backup_filename latest2
                      = JarFile.construct_backup_filename latest_jar)) as [->|Hd].
    - apply file_at_remove_eq.
    - rewrite file_at_remove_ne by congruence.
      destruct (file_at (fs w) (dest, JarFile.construct_backup_filename latest2)) eqn:Hf;
        [|reflexivity].
      exfalso. apply Hd. apply Honly. fold dest. rewrite Hf. eauto. }
  rewrite (restore_latest_backup_missing _ _ _ _ _ _ _ Hfind2 Hnone).
  eexists. repeat split.
  now destruct (find_latest_jar_frame _ _ _ _ _ _ Hfind2).
Qed.

Lemma restore_consumes_backup_witness :
  exists w',
    restore_latest_backup home (IVY_CACHE home) "org.example" "foo" world_live_backup
    = (Ok tt, w')
    /\ file_at (fs w') (default_slot, "foo-1.2.jar") = Some "old"
    /\ file_at (fs w') (default_slot, "foo-1.2.jar.bak") = None.
Proof.
  destruct (restore_consumes_backup home (IVY_CACHE home) "org.example" "foo"
              world_live_backup
              (snd (find_latest_jar home "org.example" "foo" world_live_backup))
              jar_foo_1_2 "old")
    as (w' & Hrun & Hlive & Hbak & _).
  - vm_compute. reflexivity.
  - vm_compute. eauto.
  - vm_compute. reflexivity.
  - exists w'. split; [exact Hrun|]. split; [exact Hlive | exact Hbak].
Defined.

(** Restoring twice, on the slot with a live artifact and its backup: the
    first run leaves the slot with the live artifact only, and the second
    run exits. *)
Example restore_twice :
  fst (restore_latest_backup home (IVY_CACHE home) "org.example" "foo" world_live_backup)
  = Ok tt
  /\ fs (snd (restore_latest_backup home (IVY_CACHE home) "org.example" "foo"
                world_live_backup)) = fs world_live
  /\ fst (restore_latest_backup home (IVY_CACHE home) "org.example" "foo" world_live)
     = Raise (SystemExit 1).
Proof. repeat split; vm_compute; reflexivity. Qed.

(** ** Replace *)

Lemma max_loop_In {A} (lt : A -> A -> result bool) (items : list A) :
  forall maxitem x,
    builtins.max_loop lt maxitem items = Ok x -> x = maxitem \/ In x items.
Proof.
  induction items as [|item rest IH]; intros maxitem x; simpl.
  - intros [= ->]. now left.
  - destruct (lt maxitem item) as [b|e]; simpl; [|discriminate].
    intros H. apply IH in H. destruct b; destruct H as [->|H]; auto.
Qed.

Lemma max_In {A} (lt : A -> A -> result bool) (items : list A) (x : A) :
  builtins.max lt items = Ok x -> In x items.
Proof.
  destruct items as [|item rest]; simpl; [discriminate|].
  intros H. apply max_loop_In in H. destruct H as [->|H]; auto.
Qed.

Lemma In_build_candidates (names : list string) (j : JarFile.t) :
  In j (build_candidates names) -> In (JarFile.filename j) names.
Proof.
  unfold build_candidates. intros H. apply In_candidates in H.
  destruct H as (name & Hin & Hp). rewrite (parsed_filename _ _ Hp).
  apply list_elem_of_In in Hin. apply list_elem_of_filter in Hin.
  apply list_elem_of_In. now destruct Hin.
Qed.

(** A listed name is the name of a file. *)
Lemma listed_file_exists (w : World) (d name : string) :
  listdir_consistent w ->
  is_Some (fs w !! d) ->
  In name (listdir_order w d) ->
  is_Some (file_at (fs w) (d, name)).
Proof.
  intros Hcons [files Hd] Hin. unfold file_at. simpl. rewrite Hd. simpl.
  apply elem_of_dom, elem_of_elements.
  rewrite <- (Hcons d files Hd). now apply list_elem_of_In.
Qed.

Lemma create_backup_skip (j : JarFile.t) (directory : string) (w : World) :
  is_Some (file_at (fs w) (directory, JarFile.construct_backup_filename j)) ->
  exists out,
    JarFile.create_backup j directory false w = (Ok tt, with_stdout w (stdout w ++ out)).
Proof.
  intros Hbak.
  unfold JarFile.create_backup, mbind, M_bind, os.path_isfile, print, with_stdout.
  rewrite bool_decide_eq_true_2 by exact Hbak. simpl. eexists. reflexivity.
Qed.

Lemma create_backup_move (j : JarFile.t) (directory : string) (force : bool)
    (w : World) (content : string) :
  file_at (fs w) (directory, JarFile.construct_backup_filename j) = None
  \/ force = true ->
  file_at (fs w) (directory, JarFile.filename j) = Some content ->
  exists out,
    JarFile.create_backup j directory force w =
    (Ok tt,
     {| fs := shutil.write_file (directory, JarFile.filename j +:+ ".bak") content
                (shutil.remove_file (directory, JarFile.filename j) (fs w));
        listdir_order := listdir_order w;
        stdout := stdout w ++ out |}).
Proof.
  intros Hcase Hfile. destruct (file_at_dir _ _ _ Hfile) as [files Hdir]. simpl in Hdir.
  unfold JarFile.create_backup, mbind, M_bind, os.path_isfile, print, shutil.move, set_fs.
  assert (Hcond : (bool_decide (is_Some (file_at (fs w)
                     (directory, JarFile.construct_backup_filename j)))
                   && negb force)%bool = false).
  { destruct Hcase as [Hnone| ->].
    - rewrite Hnone. rewrite bool_decide_eq_false_2; [reflexivity|].
      intros [x Hx]. discriminate Hx.
    - apply andb_false_r. }
  rewrite Hcond. simpl. rewrite Hfile, Hdir. eexists. reflexivity.
Qed.

Lemma copy_ok (j : JarFile.t) (source dest : string) (w : World) (content : string) :
  file_at (fs w) (source, JarFile.filename j) = Some content ->
  is_Some (fs w !! dest) ->
  (source, JarFile.filename j) <> (dest, JarFile.construct_filename j) ->
  exists out,
    JarFile.copy j source dest w =
    (Ok tt,
     {| fs := shutil.write_file (dest, JarFile.construct_filename j) content (fs w);
        listdir_order := listdir_order w;
        stdout := stdout w ++ out |}).
Proof.
  intros Hfile [files Hdir] Hne.
  unfold JarFile.copy, mbind, M_bind, print, shutil.copy, set_fs. simpl.
  rewrite Hfile, Hdir. rewrite bool_decide_eq_false_2 by exact Hne.
  eexists. reflexivity.
Qed.

(** The operation, once both scans have given their latest artifact. *)
Lemma create_backup_and_replace_eq
    (HOME cache_dir build_dir package project : string) (force : bool)
    (w w1 w2 : World) (latest_jar current_jar : JarFile.t) :
  get_latest_build_jar build_dir w = (Ok latest_jar, w1) ->
  find_latest_jar HOME package project w1 = (Ok current_jar, w2) ->
  create_backup_and_replace HOME cache_dir build_dir package project force w =
  match JarFile.create_backup current_jar (destination cache_dir package project)
          force w2 with
  | (Ok _, w3) =>
      JarFile.copy (JarFile.set_identity latest_jar (JarFile.basename current_jar)
                                         (JarFile.version current_jar))
                   build_dir (destination cache_dir package project) w3
  | (Raise e, w3) => (Raise e, w3)
  end.
Proof.
  intros Hbuild Hfind.
  unfold create_backup_and_replace, mbind, M_bind, mret, M_ret. rewrite Hbuild.
  simpl. rewrite Hfind. simpl. reflexivity.
Qed.

(** C4: in replace mode without force, when the destination already holds
    a backup file for the current cache artifact, the operation succeeds
    and changes one file only: the live name, which receives the content of
    the latest build artifact. No backup is created and the existing backup
    keeps its content. (The build artifact is not itself the live file.) *)
Theorem replace_keeps_existing_backup
    (HOME cache_dir build_dir package project : string) (w w1 w2 : World)
    (latest_jar current_jar : JarFile.t) (bak : string) :
  listdir_consistent w ->
  get_latest_build_jar build_dir w = (Ok latest_jar, w1) ->
  find_latest_jar HOME package project w1 = (Ok current_jar, w2) ->
  file_at (fs w) (destination cache_dir package project,
                  JarFile.construct_backup_filename current_jar) = Some bak ->
  (build_dir, JarFile.filename latest_jar)
  <> (destination cache_dir package project, JarFile.construct_filename current_jar) ->
  exists (new : string) (w' : World),
    file_at (fs w) (build_dir, JarFile.filename latest_jar) = Some new
    /\ create_backup_and_replace HOME cache_dir build_dir package project false w
       = (Ok tt, w')
    /\ fs w' = shutil.write_file (destination cache_dir package project,
                                  JarFile.construct_filename current_jar) new (fs w)
    /\ file_at (fs w') (destination cache_dir package project,
                        JarFile.construct_backup_filename current_jar) = Some bak
    /\ file_at (fs w') (destination cache_dir package project,
                        JarFile.construct_filename current_jar) = Some new
    /\ (forall p,
          p <> (destination cache_dir package project,
                JarFile.construct_filename current_jar) ->
          file_at (fs w') p = file_at (fs w) p).
Proof.
  intros Hcons Hbuild Hfind Hbak Hne.
  set (dest := destination cache_dir package project) in *.
  destruct (get_latest_build_jar_frame _ _ _ _ Hbuild) as [Hfs1 Hord1].
  destruct (find_latest_jar_frame _ _ _ _ _ _ Hfind) as [Hfs2 Hord2].
  (* the latest build artifact is a file of the build directory *)
  assert (Hnew : is_Some (file_at (fs w) (build_dir, JarFile.filename latest_jar))).
  { rewrite get_latest_build_jar_eq in Hbuild.
    destruct (fs w !! build_dir) as [files|] eqn:Hdir; [|discriminate].
    injection Hbuild as Hmax _.
    apply listed_file_exists; [assumption | rewrite Hdir; eauto |].
    apply In_build_candidates. now apply max_In in Hmax. }
  destruct Hnew as [new Hnew]. exists new.
  (* the backup step is skipped *)
  destruct (create_backup_skip current_jar dest w2) as [out1 Hskip].
  { rewrite Hfs2, Hfs1, Hbak. eauto. }
  (* the install step *)
  destruct (copy_ok (JarFile.set_identity latest_jar (JarFile.basename current_jar)
                                          (JarFile.version current_jar))
                    build_dir dest (with_stdout w2 (stdout w2 ++ out1)) new)
    as [out2 Hcopy].
  { simpl. now rewrite Hfs2, Hfs1. }
  { simpl. rewrite Hfs2, Hfs1. apply (file_at_dir _ _ _ Hbak). }
  { exact Hne. }
  eexists. split; [exact Hnew|]. split.
  { rewrite (create_backup_and_replace_eq _ _ _ _ _ _ _ _ _ _ _ Hbuild Hfind).
    fold dest. rewrite Hskip. exact Hcopy. }
  simpl. rewrite Hfs2, Hfs1.
  change (JarFile.construct_filename
            (JarFile.set_identity latest_jar (JarFile.basename current_jar)
                                  (JarFile.version current_jar)))
    with (JarFile.construct_filename current_jar).
  split; [reflexivity|]. split.
  { rewrite file_at_write_ne; [exact Hbak|].
    intros [= H]. now apply live_name_not_backup_name in H. }
  split.
  { apply file_at_write_eq. apply (file_at_dir _ _ _ Hbak). }
  intros p Hp. apply file_at_write_ne. congruence.
Qed.

Lemma world_of_consistent (dirs : list (string * list (string * string))) :
  Forall (fun d => NoDup (map fst (snd d))) dirs ->
  listdir_consistent (world_of dirs).
Proof.
  intros Hdirs d files. unfold world_of. simpl. rewrite lookup_fmap.
  destruct (list_to_map dirs !! d) as [entries|] eqn:Hd; simpl; [|discriminate].
  intros [= <-].
  apply elem_of_list_to_map_2 in Hd.
  rewrite Forall_forall in Hdirs.
  specialize (Hdirs _ Hd). simpl in Hdirs.
  rewrite dom_list_to_map_L. symmetry. now apply elements_list_to_set.
Qed.

Lemma replace_keeps_existing_backup_witness :
  exists (new : string) (w' : World),
    file_at (fs world_build_backup) (build, "foo-1.3.jar") = Some new
    /\ create_backup_and_replace home (IVY_CACHE home) build "org.example" "foo" false
         world_build_backup = (Ok tt, w')
    /\ file_at (fs w') (default_slot, "foo-1.2.jar.bak") = Some "old"
    /\ file_at (fs w') (default_slot, "foo-1.2.jar") = Some new.
Proof.
  destruct (replace_keeps_existing_backup home (IVY_CACHE home) build
              "org.example" "foo" world_build_backup
              (snd (get_latest_build_jar build world_build_backup))
              (snd (find_latest_jar home "org.example" "foo"
                      (snd (get_latest_build_jar build world_build_backup))))
              jar_foo_1_3 jar_foo_1_2 "old")
    as (new & w' & Hnew & Hrun & _ & Hbak & Hlive & _).
  - apply world_of_consistent. apply (bool_decide_unpack _). vm_compute. exact I.
  - vm_compute. reflexivity.
  - vm_compute. reflexivity.
  - vm_compute. reflexivity.
  - vm_compute. intros H. discriminate H.
  - exists new, w'. repeat split; assumption.
Defined.

Lemma write_file_lookup_eq f d n c files :
  f !! d = Some files ->
  shutil.write_file (d, n) c f !! d = Some (<[n := c]> files).
Proof. intros H. unfold shutil.write_file. simpl. rewrite H. apply lookup_insert_eq. Qed.

Lemma write_file_lookup_ne f d n c d' :
  d' <> d -> shutil.write_file (d, n) c f !! d' = f !! d'.
Proof.
  intros H. unfold shutil.write_file. simpl. destruct (f !! d); [|reflexivity].
  apply lookup_insert_ne. congruence.
Qed.

Lemma remove_file_lookup_eq f d n files :
  f !! d = Some files ->
  shutil.remove_file (d, n) f !! d = Some (delete n files).
Proof. intros H. unfold shutil.remove_file. simpl. rewrite H. apply lookup_insert_eq. Qed.

Lemma remove_file_lookup_ne f d n d' :
  d' <> d -> shutil.remove_file (d, n) f !! d' = f !! d'.
Proof.
  intros H. unfold shutil.remove_file. simpl. destruct (f !! d); [|reflexivity].
  apply lookup_insert_ne. congruence.
Qed.

(** The listing of a directory with one file. *)
Lemma listdir_singleton (w : World) (d name content : string) :
  listdir_consistent w ->
  fs w !! d = Some {[ name := content ]} ->
  listdir_order w d = [name].
Proof.
  intros Hcons Hd. specialize (Hcons _ _ Hd).
  rewrite dom_singleton_L, elements_singleton in Hcons.
  now apply Permutation_singleton_r in Hcons.
Qed.

Lemma latest_of_build_foo_1_3 :
  builtins.max JarFile.__lt__ (build_candidates ["foo-1.3.jar"]) = Ok jar_foo_1_3.
Proof. vm_compute. reflexivity. Qed.

Lemma latest_of_cache_foo_1_2 :
  builtins.max JarFile.__lt__ (cache_candidates ["foo-1.2.jar"]) = Ok jar_foo_1_2.
Proof. vm_compute. reflexivity. Qed.

(** Two paths whose file names differ. *)
Ltac names_differ :=
  let H := fresh "H" in
  intros H; apply (f_equal snd) in H; vm_compute in H; discriminate H.

(** C1: replace mode without force, from a cache jars directory that holds
    foo-1.2.jar only and a build directory that holds foo-1.3.jar only, the
    jars directory being the one that is scanned: the operation succeeds;
    afterwards the jars directory holds foo-1.2.jar.bak with the old content
    of foo-1.2.jar and foo-1.2.jar with the content of the build, and the
    build directory and every other directory are as they were. *)
Theorem replace_scenario
    (HOME cache_dir build_dir package project : string) (w : World) (old new : string) :
  listdir_consistent w ->
  scan_dir HOME package project = destination cache_dir package project ->
  fs w !! destination cache_dir package project = Some {[ "foo-1.2.jar" := old ]} ->
  fs w !! build_dir = Some {[ "foo-1.3.jar" := new ]} ->
  exists w',
    create_backup_and_replace HOME cache_dir build_dir package project false w
    = (Ok tt, w')
    /\ fs w' !! destination cache_dir package project
       = Some {[ "foo-1.2.jar" := new; "foo-1.2.jar.bak" := old ]}
    /\ fs w' !! build_dir = Some {[ "foo-1.3.jar" := new ]}
    /\ (forall d, d <> destination cache_dir package project -> fs w' !! d = fs w !! d).
Proof.
  intros Hcons Hscan Hdest Hbuild.
  set (dest := destination cache_dir package project) in *.
  assert (Hdirs : build_dir <> dest).
  { intros ->.
    assert (Heq : ({[ "foo-1.2.jar" := old ]} : gmap string string)
                  = {[ "foo-1.3.jar" := new ]}) by congruence.
    apply (f_equal (fun m : gmap string string => m !! "foo-1.2.jar")) in Heq.
    rewrite lookup_singleton_eq, lookup_singleton_ne in Heq; discriminate. }
  (* the two scans *)
  pose proof (get_latest_build_jar_eq build_dir w) as Hb.
  rewrite Hbuild, (listdir_singleton _ _ _ _ Hcons Hbuild), latest_of_build_foo_1_3 in Hb.
  set (w1 := with_stdout w _) in Hb.
  destruct (find_latest_jar_eq HOME package project w1) as [out Hf].
  rewrite Hscan in Hf. simpl fs in Hf. simpl listdir_order in Hf. fold dest in Hf.
  rewrite Hdest, (listdir_singleton _ _ _ _ Hcons Hdest), latest_of_cache_foo_1_2 in Hf.
  set (w2 := with_stdout w1 _) in Hf.
  (* the backup step moves the live file *)
  destruct (create_backup_move jar_foo_1_2 dest false w2 old) as [out1 Hmove].
  { left. unfold file_at. simpl. rewrite Hdest. reflexivity. }
  { unfold file_at. simpl. rewrite Hdest. reflexivity. }
  set (w3 := {| fs := _ |}) in Hmove.
  (* the install step copies the build *)
  destruct (copy_ok (JarFile.set_identity jar_foo_1_3 (JarFile.basename jar_foo_1_2)
                                          (JarFile.version jar_foo_1_2))
                    build_dir dest w3 new) as [out2 Hcopy].
  { simpl. rewrite file_at_write_ne by names_differ.
    rewrite file_at_remove_ne by names_differ.
    unfold file_at. simpl. rewrite Hbuild. reflexivity. }
  { simpl. erewrite write_file_lookup_eq; [eauto|].
    apply remove_file_lookup_eq. exact Hdest. }
  { names_differ. }
  eexists. split.
  { rewrite (create_backup_and_replace_eq _ _ _ _ _ _ _ _ _ _ _ Hb Hf).
    fold dest. rewrite Hmove. exact Hcopy. }
  simpl. split; [|split].
  - erewrite write_file_lookup_eq;
      [|erewrite write_file_lookup_eq;
        [reflexivity | apply remove_file_lookup_eq; exact Hdest]].
    rewrite delete_singleton_eq, insert_empty. reflexivity.
  - rewrite !write_file_lookup_ne, remove_file_lookup_ne by exact Hdirs. exact Hbuild.
  - intros d Hd.
    rewrite !write_file_lookup_ne, remove_file_lookup_ne by exact Hd. reflexivity.
Qed.

Lemma replace_scenario_witness :
  exists w',
    create_backup_and_replace home (IVY_CACHE home) build "org.example" "foo" false
      world_build = (Ok tt, w')
    /\ fs w' !! destination (IVY_CACHE home) "org.example" "foo"
       = Some {[ "foo-1.2.jar" := "new"; "foo-1.2.jar.bak" := "old" ]}
    /\ fs w' !! build = Some {[ "foo-1.3.jar" := "new" ]}
    /\ (forall d, d <> destination (IVY_CACHE home) "org.example" "foo" ->
                  fs w' !! d = fs world_build !! d).
Proof.
  apply (replace_scenario home (IVY_CACHE home) build "org.example" "foo"
           world_build "old" "new").
  - apply world_of_consistent. apply (bool_decide_unpack _). vm_compute. exact I.
  - reflexivity.
  - vm_compute. reflexivity.
  - vm_compute. reflexivity.
Defined.

(** ** The comparator on versions of equal length *)

(** C6: on versions that are sequences of integers with the same number of
    components, the comparator returns what the comparison of the
    components as integers from the left returns, the first pair that
    differs deciding; and it is a strict total order there: irreflexive,
    asymmetric, transitive, and any two versions are ordered or have the
    same numbers. *)
Theorem lt_strict_total_order_on_equal_lengths
    (a b c : JarFile.t) (xs ys zs : list Z) :
  version_numbers (JarFile.version a) = Some xs ->
  version_numbers (JarFile.version b) = Some ys ->
  version_numbers (JarFile.version c) = Some zs ->
  length xs = length ys ->
  length ys = length zs ->
  JarFile.__lt__ a b = Ok (spec_version_lt xs ys)
  /\ (forall p x y xs' ys',
        xs = p ++ x :: xs' -> ys = p ++ y :: ys' -> x <> y ->
        JarFile.__lt__ a b = Ok (x <? y))
  /\ JarFile.__lt__ a a = Ok false
  /\ (JarFile.__lt__ a b = Ok true -> JarFile.__lt__ b a = Ok false)
  /\ (JarFile.__lt__ a b = Ok true -> JarFile.__lt__ b c = Ok true ->
      JarFile.__lt__ a c = Ok true)
  /\ (JarFile.__lt__ a b = Ok true \/ JarFile.__lt__ b a = Ok true \/ xs = ys).
Proof.
  intros Ha Hb Hc Hab Hbc.
  rewrite (lt_spec a b xs ys Ha Hb) by lia.
  rewrite (lt_spec a a xs xs Ha Ha) by lia.
  rewrite (lt_spec b a ys xs Hb Ha) by lia.
  rewrite (lt_spec b c ys zs Hb Hc) by lia.
  rewrite (lt_spec a c xs zs Ha Hc) by lia.
  split; [reflexivity|]. split.
  { intros p x y xs' ys' -> -> Hne. now rewrite spec_version_lt_first_difference. }
  split; [now rewrite spec_version_lt_irrefl|]. split.
  { intros [= H]. f_equal.
    destruct (spec_version_lt ys xs) eqn:H'; [|reflexivity].
    pose proof (spec_version_lt_trans _ _ _ H H') as Hxx.
    rewrite spec_version_lt_irrefl in Hxx. discriminate Hxx. }
  split.
  { intros [= H1] [= H2]. f_equal. eapply spec_version_lt_trans; eassumption. }
  destruct (spec_version_lt_total xs ys Hab) as [H|[H|H]].
  - left. now rewrite H.
  - right. left. now rewrite H.
  - right. right. exact H.
Qed.

Lemma lt_strict_total_order_on_equal_lengths_witness :
  JarFile.__lt__ (jar_of_version "1.9") (jar_of_version "1.10") = Ok true
  /\ JarFile.__lt__ (jar_of_version "1.10") (jar_of_version "1.9") = Ok false
  /\ JarFile.__lt__ (jar_of_version "1.9") (jar_of_version "2.0") = Ok true.
Proof.
  destruct (lt_strict_total_order_on_equal_lengths
              (jar_of_version "1.9") (jar_of_version "1.10") (jar_of_version "2.0")
              [1; 9] [1; 10] [2; 0])
    as (Hab & _ & _ & Hasym & Htrans & _);
    try reflexivity.
  split; [exact Hab|]. split; [exact (Hasym Hab)|].
  apply Htrans; [exact Hab | reflexivity].
Defined.

(** ** Where the program departs from its specification *)

(** C5: the comparator is not defined on every pair of artifacts. With
    foo-1.2.0.jar on the left and foo-1.2.jar on the right the loop reads
    the third component of the right version, which does not exist, and
    raises IndexError; the other way round it returns False. With foo-.jar
    the empty component is not an integer and int raises ValueError. The
    selection of the latest artifact fails with the comparator. *)
Theorem lt_raises_on_longer_left_version :
  parsed "foo-1.2.0.jar" = Some (jar_of_version "1.2.0")
  /\ parsed "foo-1.2.jar" = Some (jar_of_version "1.2")
  /\ parsed "foo-.jar" = Some (jar_of_version "")
  /\ JarFile.__lt__ (jar_of_version "1.2.0") (jar_of_version "1.2") = Raise IndexError
  /\ JarFile.__lt__ (jar_of_version "1.2") (jar_of_version "1.2.0") = Ok false
  /\ JarFile.__lt__ (jar_of_version "") (jar_of_version "1.2") = Raise ValueError
  /\ builtins.max JarFile.__lt__ (cache_candidates ["foo-1.2.0.jar"; "foo-1.2.jar"])
     = Raise IndexError.
Proof. repeat split; vm_compute; reflexivity. Qed.

(** C2: the scan does not follow the cache root that the caller gives.
    With the root /srv/cache the backup and the installation take place in
    /srv/cache/org.example/foo/jars, and the scan still reads the slot of
    the default root: it finds foo-1.1.jar there, and the backup step then
    looks for that file in the other slot and raises FileNotFoundError,
    leaving the files as they were; without a default cache the scan itself
    raises. *)
Theorem scan_ignores_cache_override :
  scan_dir home "org.example" "foo" = default_slot
  /\ destination "/srv/cache" "org.example" "foo" = other_slot
  /\ default_slot <> other_slot
  /\ fst (find_latest_jar home "org.example" "foo" world_two_caches)
     = Ok (jar_of_version "1.1")
  /\ fst (create_backup_and_replace home "/srv/cache" build "org.example" "foo" false
            world_two_caches) = Raise FileNotFoundError
  /\ last (stdout (snd (create_backup_and_replace home "/srv/cache" build
                          "org.example" "foo" false world_two_caches)))
     = Some "Creating backup: /srv/cache/org.example/foo/jars/foo-1.1.jar.bak"
  /\ fs (snd (create_backup_and_replace home "/srv/cache" build "org.example" "foo"
                false world_two_caches)) = fs world_two_caches
  /\ fst (create_backup_and_replace home "/srv/cache" build "org.example" "foo" false
            world_other_cache) = Raise FileNotFoundError
  /\ fst (restore_latest_backup home "/srv/cache" "org.example" "foo" world_other_cache)
     = Raise FileNotFoundError.
Proof.
  repeat split; try (vm_compute; reflexivity).
  vm_compute. intros H. discriminate H.
Qed.

(** C8: when a scan finds no artifact, max raises ValueError and the
    operation ends there, with status 1 and without touching a file; the
    message and the exit that the program has for this case come after the
    scan and are never reached, so nothing is printed about the failure. *)
Theorem empty_scan_raises_before_report :
  build_candidates (listdir_order world_empty_build build) = []
  /\ create_backup_and_replace home (IVY_CACHE home) build "org.example" "foo" false
       world_empty_build
     = (Raise ValueError,
        with_stdout world_empty_build ["Searching for latest jar in: /work/build/libs"])
  /\ cache_candidates (listdir_order world_empty_cache default_slot) = []
  /\ fst (create_backup_and_replace home (IVY_CACHE home) build "org.example" "foo" false
            world_empty_cache) = Raise ValueError
  /\ stdout (snd (create_backup_and_replace home (IVY_CACHE home) build "org.example"
                    "foo" false world_empty_cache))
     = ["Searching for latest jar in: /work/build/libs";
        "Finding latest jar for org.example.foo"]
  /\ fs (snd (create_backup_and_replace home (IVY_CACHE home) build "org.example"
                "foo" false world_empty_cache)) = fs world_empty_cache
  /\ exit_status (fst (create_backup_and_replace home (IVY_CACHE home) build
                         "org.example" "foo" false world_empty_cache)) = 1.
Proof. repeat split; vm_compute; reflexivity. Qed.

(** * Further properties of the parser *)

Lemma str_inj (a b : list ascii) : str a = str b -> a = b.
Proof. intros H. rewrite <- (chars_str a), <- (chars_str b). now rewrite H. Qed.

Lemma at_end_cases rest : Re.at_end rest = true -> rest = [] \/ rest = [newline].
Proof.
  destruct rest as [|c [|c' rest]]; simpl; try discriminate; auto.
  intros H. apply ascii_eqb_eq in H. subst. now right.
Qed.

Lemma run_nonempty_search (pre s : list ascii) :
  Re.run jar_pattern s ∅ <> [] -> is_Some (Re.search_from jar_pattern (pre ++ s)).
Proof.
  intros Hrun. induction pre as [|c pre IH]; simpl app; rewrite search_from_eq.
  - destruct (Re.run jar_pattern s ∅); [contradiction | eauto].
  - destruct (Re.run jar_pattern (c :: pre ++ s) ∅); [exact IH | eauto].
Qed.

(** The parts of a parsed name, as lists of characters. *)
Lemma parsed_shape name j :
  parsed name = Some j ->
  exists pre g1 g2 g3 rest,
    chars name = pre ++ g1 ++ "-"%char :: g2 ++ g3 ++ rest
    /\ jar_shape (g1 ++ "-"%char :: g2 ++ g3 ++ rest) g1 g2 g3 rest
    /\ JarFile.basename j = str g1 /\ JarFile.version j = str g2
    /\ JarFile.extension j = str g3.
Proof.
  unfold parsed, JarFile._parse_filename, Re.search.
  destruct (Re.search_from jar_pattern (chars name)) as [m|] eqn:Hs; [|discriminate].
  intros [= <-]. simpl.
  destruct (search_from_shape _ _ Hs) as (pre & s' & g1 & g2 & g3 & rest & Hn & Hsh & ->).
  assert (Hs' : s' = g1 ++ "-"%char :: g2 ++ g3 ++ rest) by now destruct Hsh.
  subst s'. exists pre, g1, g2, g3, rest. now rewrite group_1, group_2, group_3.
Qed.

(** X1: an artifact made of a file name keeps the name, and its parts are
    read in the name: somewhere in it stand the basename, a dash, the
    version, the extension, and then the end of the name or a last newline.
    The basename has no newline, the version is made of digits and dots,
    the extension is .jar or .jar.bak. *)
Theorem parsed_parts (name : string) (j : JarFile.t) :
  parsed name = Some j ->
  JarFile.filename j = name
  /\ (exists pre rest,
        name = pre +:+ JarFile.basename j +:+ "-" +:+ JarFile.version j
               +:+ JarFile.extension j +:+ rest
        /\ (rest = "" \/ rest = String newline ""))
  /\ single_line (chars (JarFile.basename j)) = true
  /\ forallb (Re.class_matches version_chars) (chars (JarFile.version j)) = true
  /\ (JarFile.extension j = ".jar" \/ JarFile.extension j = ".jar.bak").
Proof.
  intros Hp. split; [now apply parsed_filename|].
  destruct (parsed_shape _ _ Hp) as (pre & g1 & g2 & g3 & rest & Hn & Hsh & -> & -> & ->).
  destruct Hsh as (_ & Hg1 & Hg2 & Hg3 & Hend).
  rewrite !chars_str. repeat split; try assumption.
  - exists (str pre), (str rest). split.
    + rewrite <- (str_chars name), Hn.
      now rewrite str_app, str_app, str_cons, str_app, str_app.
    + destruct (at_end_cases _ Hend) as [-> | ->]; [now left | now right].
  - destruct Hg3 as [-> | ->]; [now left | now right].
Qed.

Lemma parsed_parts_witness :
  JarFile.filename jar_foo_1_2 = "foo-1.2.jar"
  /\ (exists pre rest,
        "foo-1.2.jar" = pre +:+ JarFile.basename jar_foo_1_2 +:+ "-"
                        +:+ JarFile.version jar_foo_1_2
                        +:+ JarFile.extension jar_foo_1_2 +:+ rest
        /\ (rest = "" \/ rest = String newline ""))
  /\ single_line (chars (JarFile.basename jar_foo_1_2)) = true
  /\ forallb (Re.class_matches version_chars) (chars (JarFile.version jar_foo_1_2)) = true
  /\ (JarFile.extension jar_foo_1_2 = ".jar" \/ JarFile.extension jar_foo_1_2 = ".jar.bak").
Proof.
  apply (parsed_parts "foo-1.2.jar" jar_foo_1_2). vm_compute. reflexivity.
Defined.

Lemma shape_occurs_parsed (pre b v e rest : string) :
  single_line (chars b) = true ->
  forallb (Re.class_matches version_chars) (chars v) = true ->
  e = ".jar" \/ e = ".jar.bak" ->
  rest = "" \/ rest = String newline "" ->
  is_Some (parsed (pre +:+ b +:+ "-" +:+ v +:+ e +:+ rest)).
Proof.
  intros Hb Hv He Hrest.
  assert (Hrun : Re.run jar_pattern
                   (chars b ++ "-"%char :: chars v ++ chars e ++ chars rest) ∅ <> []).
  { intros Hnil.
    assert (Hin : In (chars b ++ "-"%char :: chars v ++ chars e, chars rest,
                      groups_of (chars b) (chars v) (chars e))
                     (Re.run jar_pattern
                        (chars b ++ "-"%char :: chars v ++ chars e ++ chars rest) ∅)).
    { apply run_jar_pattern. exists (chars b), (chars v), (chars e), (chars rest).
      split; [|reflexivity]. repeat split; try assumption.
      - destruct He as [-> | ->]; [now left | now right].
      - destruct Hrest as [-> | ->]; reflexivity. }
    rewrite Hnil in Hin. destruct Hin. }
  apply (run_nonempty_search (chars pre)) in Hrun.
  unfold parsed, JarFile._parse_filename, Re.search.
  assert (Hc : chars (pre +:+ b +:+ "-" +:+ v +:+ e +:+ rest)
               = chars pre ++ chars b ++ "-"%char :: chars v ++ chars e ++ chars rest).
  { rewrite chars_app, chars_app. f_equal. f_equal.
    change ("-" +:+ v +:+ e +:+ rest) with (String "-"%char (v +:+ e +:+ rest)).
    simpl. now rewrite !chars_app. }
  rewrite Hc. destruct Hrun as [m ->]. eauto.
Qed.

(** X2: the names that the parser accepts are those in which the shape
    occurs: a run without newline, a dash, a run of digits and dots, .jar or
    .jar.bak, and then the end of the name or a last newline. Every other
    name gives no artifact. *)
Theorem parsed_iff_shape_occurs (name : string) :
  is_Some (parsed name) <->
  exists pre b v e rest : string,
    name = pre +:+ b +:+ "-" +:+ v +:+ e +:+ rest
    /\ single_line (chars b) = true
    /\ forallb (Re.class_matches version_chars) (chars v) = true
    /\ (e = ".jar" \/ e = ".jar.bak")
    /\ (rest = "" \/ rest = String newline "").
Proof.
  split.
  - intros [j Hp].
    destruct (parsed_shape _ _ Hp) as (pre & g1 & g2 & g3 & rest & Hn & Hsh & _).
    destruct Hsh as (_ & Hg1 & Hg2 & Hg3 & Hend).
    exists (str pre), (str g1), (str g2), (str g3), (str rest).
    rewrite !chars_str. repeat split; try assumption.
    + rewrite <- (str_chars name), Hn.
      now rewrite str_app, str_app, str_cons, str_app, str_app.
    + destruct Hg3 as [-> | ->]; [now left | now right].
    + destruct (at_end_cases _ Hend) as [-> | ->]; [now left | now right].
  - intros (pre & b & v & e & rest & -> & Hb & Hv & He & Hrest).
    now apply shape_occurs_parsed.
Qed.

Lemma version_chars_no_dash (g : list ascii) :
  forallb (Re.class_matches version_chars) g = true -> ~ In "-"%char g.
Proof.
  intros Hg Hin. rewrite forallb_forall in Hg. specialize (Hg _ Hin).
  vm_compute in Hg. discriminate Hg.
Qed.

Lemma version_chars_single_line (g : list ascii) :
  forallb (Re.class_matches version_chars) g = true -> single_line g = true.
Proof.
  unfold single_line. rewrite !forallb_forall. intros Hg c Hin.
  destruct (version_char_cases c (Hg c Hin)) as [Hd| ->]; [|reflexivity].
  simpl. destruct (ascii_eqb c newline) eqn:Hc; [|reflexivity].
  apply ascii_eqb_eq in Hc. subst c. vm_compute in Hd. discriminate Hd.
Qed.

(** Cutting a list at its last occurrence of a character. *)
Lemma split_at_last_unique {A} (d : A) (l1 : list A) :
  forall l2 l1' l2',
    l1 ++ d :: l2 = l1' ++ d :: l2' -> ~ In d l2 -> ~ In d l2' ->
    l1 = l1' /\ l2 = l2'.
Proof.
  induction l1 as [|a l1 IH]; intros l2 [|a' l1'] l2' Heq H2 H2'; simpl in Heq.
  - injection Heq as ->. now split.
  - injection Heq as <- ->. exfalso. apply H2. apply in_or_app. right. now left.
  - injection Heq as -> <-. exfalso. apply H2'. apply in_or_app. right. now left.
  - injection Heq as -> Heq. destruct (IH _ _ _ Heq H2 H2') as [-> ->]. now split.
Qed.

(** A name has its three parts in one way only. *)
Lemma shape_unique (g1 g2 g3 h1 h2 h3 : list ascii) :
  g1 ++ "-"%char :: g2 ++ g3 = h1 ++ "-"%char :: h2 ++ h3 ->
  forallb (Re.class_matches version_chars) g2 = true ->
  forallb (Re.class_matches version_chars) h2 = true ->
  g3 = chars ".jar" \/ g3 = chars ".jar.bak" ->
  h3 = chars ".jar" \/ h3 = chars ".jar.bak" ->
  g1 = h1 /\ g2 = h2 /\ g3 = h3.
Proof.
  intros Heq Hg2 Hh2 Hg3 Hh3.
  assert (H3 : g3 = h3).
  { pose proof (f_equal (@rev ascii) Heq) as Hr.
    change ("-"%char :: g2 ++ g3) with (("-"%char :: g2) ++ g3) in Hr.
    change ("-"%char :: h2 ++ h3) with (("-"%char :: h2) ++ h3) in Hr.
    rewrite !rev_app_distr in Hr.
    destruct Hg3 as [-> | ->], Hh3 as [-> | ->]; try reflexivity;
      simpl in Hr; discriminate Hr. }
  subst h3.
  change ("-"%char :: g2 ++ g3) with (("-"%char :: g2) ++ g3) in Heq.
  change ("-"%char :: h2 ++ g3) with (("-"%char :: h2) ++ g3) in Heq.
  rewrite !app_assoc in Heq. apply app_inv_tail in Heq.
  destruct (split_at_last_unique _ _ _ _ _ Heq (version_chars_no_dash _ Hg2)
              (version_chars_no_dash _ Hh2)) as [-> ->].
  now repeat split.
Qed.

Lemma parsed_built (b v e : string) :
  single_line (chars b) = true ->
  forallb (Re.class_matches version_chars) (chars v) = true ->
  e = ".jar" \/ e = ".jar.bak" ->
  parsed (b +:+ "-" +:+ v +:+ e)
  = Some {| JarFile.filename := b +:+ "-" +:+ v +:+ e; JarFile.basename := b;
            JarFile.version := v; JarFile.extension := e |}.
Proof.
  intros Hb Hv He.
  set (name := b +:+ "-" +:+ v +:+ e).
  assert (Hc : chars name = chars b ++ "-"%char :: chars v ++ chars e).
  { unfold name. rewrite chars_app.
    change ("-" +:+ v +:+ e) with (String "-"%char (v +:+ e)). simpl.
    now rewrite chars_app. }
  assert (Hline : single_line (chars name) = true).
  { rewrite Hc. unfold single_line in *.
    change ("-"%char :: chars v ++ chars e) with (["-"%char] ++ chars v ++ chars e).
    rewrite !forallb_app, Hb. fold (single_line (chars v)).
    rewrite (version_chars_single_line _ Hv).
    destruct He as [-> | ->]; reflexivity. }
  assert (Hsome : is_Some (parsed name)).
  { pose proof (shape_occurs_parsed "" b v e "" Hb Hv He (or_introl eq_refl)) as H.
    change ("" +:+ b +:+ "-" +:+ v +:+ e +:+ "") with (b +:+ "-" +:+ v +:+ e +:+ "") in H.
    rewrite string_app_nil_r in H. exact H. }
  destruct Hsome as [j Hj].
  rewrite Hj. f_equal.
  destruct (parsed_shape _ _ Hj) as (pre & g1 & g2 & g3 & rest & Hn & Hsh & Hjb & Hjv & Hje).
  destruct (parsed_single_line _ _ Hline Hj) as (Hf & Hname & Hext).
  destruct Hsh as (_ & Hg1 & Hg2 & Hg3 & Hend).
  assert (Hparts : chars name = g1 ++ "-"%char :: g2 ++ g3).
  { rewrite Hname, Hjb, Hjv, Hje, chars_app, chars_str.
    change ("-" +:+ str g2 +:+ str g3) with (String "-"%char (str g2 +:+ str g3)).
    simpl. now rewrite chars_app, !chars_str. }
  rewrite Hc in Hparts.
  destruct (shape_unique _ _ _ _ _ _ Hparts Hv Hg2) as (H1 & H2 & H3).
  { destruct He as [-> | ->]; [now left | now right]. }
  { exact Hg3. }
  destruct j as [jf jb jv je]. simpl in *. subst jf jb jv je.
  rewrite <- H1, <- H2, <- H3, !str_chars. reflexivity.
Qed.

(** X3: the names that an artifact builds are parsed back into its parts:
    when the basename has no newline and the version is made of digits and
    dots, the live name gives the basename, the version and the extension
    .jar, and the backup name gives the same basename and version and the
    extension .jar.bak. *)
Theorem parse_of_constructed_names (j : JarFile.t) :
  single_line (chars (JarFile.basename j)) = true ->
  forallb (Re.class_matches version_chars) (chars (JarFile.version j)) = true ->
  parsed (JarFile.construct_filename j)
  = Some {| JarFile.filename := JarFile.construct_filename j;
            JarFile.basename := JarFile.basename j;
            JarFile.version := JarFile.version j; JarFile.extension := ".jar" |}
  /\ parsed (JarFile.construct_backup_filename j)
     = Some {| JarFile.filename := JarFile.construct_backup_filename j;
               JarFile.basename := JarFile.basename j;
               JarFile.version := JarFile.version j; JarFile.extension := ".jar.bak" |}.
Proof.
  intros Hb Hv. unfold JarFile.construct_filename, JarFile.construct_backup_filename.
  split; apply parsed_built; auto.
Qed.

Lemma parse_of_constructed_names_witness :
  parsed (JarFile.construct_filename (jar_of_version "1.10"))
  = Some {| JarFile.filename := JarFile.construct_filename (jar_of_version "1.10");
            JarFile.basename := "foo"; JarFile.version := "1.10";
            JarFile.extension := ".jar" |}
  /\ parsed (JarFile.construct_backup_filename (jar_of_version "1.10"))
     = Some {| JarFile.filename := JarFile.construct_backup_filename (jar_of_version "1.10");
               JarFile.basename := "foo"; JarFile.version := "1.10";
               JarFile.extension := ".jar.bak" |}.
Proof.
  apply (parse_of_constructed_names (jar_of_version "1.10")); reflexivity.
Defined.

(** X4: the constructor parses the file name itself, whatever parts it is
    given, and raises TypeError exactly on the names that the pattern
    rejects; the factory, which constructs after a match only, never
    raises: it gives None for these names. *)
Theorem constructor_raises_on_rejected_names (name : string) :
  (forall b v e, JarFile.__init__ name b v e
                 = match parsed name with Some j => Ok j | None => Raise TypeError end)
  /\ (forall b v e, JarFile.__init__ name b v e = Raise TypeError <-> parsed name = None)
  /\ JarFileFactory.create_jar_file name = Ok (parsed name).
Proof.
  assert (Hinit : forall b v e, JarFile.__init__ name b v e
                  = match parsed name with Some j => Ok j | None => Raise TypeError end).
  { intros b v e.
    unfold JarFile.__init__, JarFile.extract_basename, JarFile.extract_version,
      JarFile.extract_extension, parsed.
    destruct (JarFile._parse_filename name); reflexivity. }
  split; [exact Hinit|]. split; [|apply create_jar_file_parsed].
  intros b v e. rewrite Hinit. destruct (parsed name); split; congruence.
Qed.

(** What a match of the pattern of the build directory says of the name. *)
Lemma match_build_shape (name : string) :
  is_Some (Re.match_ build_pattern name) ->
  exists g1 g2 rest,
    chars name = g1 ++ "-"%char :: g2 ++ chars ".jar" ++ rest
    /\ Re.at_end rest = true.
Proof.
  unfold Re.match_.
  destruct (Re.run build_pattern (chars name) ∅) as [|x l] eqn:Hrun;
    [intros [m Hm]; discriminate Hm|].
  intros _.
  assert (H : In x (Re.run build_pattern (chars name) ∅)) by (rewrite Hrun; now left).
  unfold build_pattern in H.
  apply ReFacts.run_Seq in H.
  destruct H as (m1 & s1 & h1 & m2 & s2 & h2 & H1 & H & _).
  apply ReFacts.run_Group in H1. destruct H1 as (g1 & r1 & h1' & H1 & Heq).
  injection Heq as -> -> ->.
  apply ReFacts.run_Star in H1. destruct H1 as (g1' & r1' & Hn & _ & Heq).
  injection Heq as -> -> ->.
  apply ReFacts.run_Seq in H.
  destruct H as (d & s3 & h3 & m3 & s4 & h4 & Hd & H & Heq).
  injection Heq as -> -> ->.
  apply ReFacts.run_Chr in Hd. destruct Hd as (c & r3 & -> & Hc & Heq).
  injection Heq as -> -> ->. simpl in Hc. apply ascii_eqb_eq in Hc. subst c.
  apply ReFacts.run_Seq in H.
  destruct H as (m5 & s5 & h5 & m6 & s6 & h6 & H2 & H & Heq).
  injection Heq as -> -> ->.
  apply ReFacts.run_Group in H2. destruct H2 as (g2 & r5 & h5' & H2 & Heq).
  injection Heq as -> -> ->.
  apply ReFacts.run_Star in H2. destruct H2 as (g2' & r5' & -> & _ & Heq).
  injection Heq as -> -> ->.
  apply ReFacts.run_Seq in H.
  destruct H as (m7 & s7 & h7 & m8 & s8 & h8 & H3 & H & Heq).
  injection Heq as -> -> ->.
  apply ReFacts.run_EndOfString in H. destruct H as [Hend Heq].
  injection Heq as -> -> ->.
  apply ReFacts.run_literal in H3. destruct H3 as (rest & -> & Heq).
  injection Heq as -> -> ->.
  exists g1', g2', rest. split; [exact Hn | exact Hend].
Qed.

(** X5: a backup is never a candidate of the build directory: every
    artifact of which [get_latest_build_jar] takes the latest has the
    extension .jar, whatever the names in the listing. *)
Theorem build_candidates_are_live (names : list string) (j : JarFile.t) :
  In j (build_candidates names) ->
  JarFile.extension j = ".jar" /\ JarFile.is_backup j = false.
Proof.
  intros Hin. unfold build_candidates in Hin. apply In_candidates in Hin.
  destruct Hin as (name & Hname & Hp).
  apply list_elem_of_In, list_elem_of_filter in Hname. destruct Hname as [Hm _].
  destruct (match_build_shape _ Hm) as (b1 & b2 & brest & Hb & Hbend).
  destruct (parsed_shape _ _ Hp) as (pre & g1 & g2 & g3 & rest & Hn & Hsh & _ & _ & He).
  destruct Hsh as (_ & _ & _ & Hg3 & Hend).
  assert (H3 : g3 = chars ".jar").
  { destruct Hg3 as [-> | ->]; [reflexivity|]. exfalso.
    rewrite Hb in Hn. apply (f_equal (@rev ascii)) in Hn.
    change ("-"%char :: b2 ++ chars ".jar" ++ brest)
      with (("-"%char :: b2) ++ chars ".jar" ++ brest) in Hn.
    change ("-"%char :: g2 ++ chars ".jar.bak" ++ rest)
      with (("-"%char :: g2) ++ chars ".jar.bak" ++ rest) in Hn.
    rewrite !rev_app_distr in Hn.
    destruct (at_end_cases _ Hbend) as [-> | ->],
             (at_end_cases _ Hend) as [-> | ->];
      simpl in Hn; discriminate Hn. }
  subst g3. unfold JarFile.is_backup. rewrite He. split; reflexivity.
Qed.

Lemma build_candidates_are_live_witness :
  JarFile.extension jar_foo_1_3 = ".jar" /\ JarFile.is_backup jar_foo_1_3 = false.
Proof.
  apply (build_candidates_are_live ["foo-1.2.jar.bak"; "foo-1.3.jar"] jar_foo_1_3).
  vm_compute. left. reflexivity.
Defined.

(** * Further properties of the comparator and of the selection *)

Lemma version_numbers_Forall2 (v : string) (xs : list Z) :
  version_numbers v = Some xs ->
  Forall2 (fun c x => component_number c = Some x) (builtins.split "."%char v) xs.
Proof. unfold version_numbers. apply mapM_Some_1. Qed.

Lemma lt_loop_step c vc o oc x y :
  component_number c = Some x -> component_number o = Some y ->
  JarFile.lt_loop 0 (c :: vc) (o :: oc)
  = if x =? y then JarFile.lt_loop 0 vc oc else Ok (x <? y).
Proof.
  intros Hc Ho. simpl.
  rewrite (component_number_int _ _ Hc), (component_number_int _ _ Ho). simpl.
  destruct (x =? y); simpl; [|reflexivity].
  rewrite lt_loop_drop. simpl. now rewrite drop_0.
Qed.

Lemma lt_loop_index_error (ys : list Z) : forall vc oc x extra,
  Forall2 (fun c n => component_number c = Some n) vc (ys ++ x :: extra) ->
  Forall2 (fun c n => component_number c = Some n) oc ys ->
  JarFile.lt_loop 0 vc oc = Raise IndexError.
Proof.
  induction ys as [|y ys IH]; intros vc oc x extra Hvc Hoc; simpl in Hvc.
  - inversion Hoc; subst. inversion Hvc; subst. reflexivity.
  - inversion Hoc as [|o ? oc' ? Ho Hoc']; subst.
    inversion Hvc as [|c ? vc' ? Hc Hvc']; subst.
    rewrite (lt_loop_step _ _ _ _ _ _ Hc Ho), Z.eqb_refl. eapply IH; eassumption.
Qed.

Lemma lt_loop_first_difference (p : list Z) : forall vc oc x y xs ys,
  Forall2 (fun c n => component_number c = Some n) vc (p ++ x :: xs) ->
  Forall2 (fun c n => component_number c = Some n) oc (p ++ y :: ys) ->
  x <> y ->
  JarFile.lt_loop 0 vc oc = Ok (x <? y).
Proof.
  induction p as [|z p IH]; intros vc oc x y xs ys Hvc Hoc Hne; simpl in Hvc, Hoc.
  - inversion Hoc as [|o ? oc' ? Ho Hoc']; subst.
    inversion Hvc as [|c ? vc' ? Hc Hvc']; subst.
    rewrite (lt_loop_step _ _ _ _ _ _ Hc Ho).
    destruct (Z.eqb_spec x y); [contradiction | reflexivity].
  - inversion Hoc as [|o ? oc' ? Ho Hoc']; subst.
    inversion Hvc as [|c ? vc' ? Hc Hvc']; subst.
    rewrite (lt_loop_step _ _ _ _ _ _ Hc Ho), Z.eqb_refl. eapply IH; eassumption.
Qed.

Lemma spec_version_lt_prefix xs extra : spec_version_lt xs (xs ++ extra) = false.
Proof. induction xs as [|x xs IH]; simpl; [reflexivity|]. now rewrite Z.eqb_refl. Qed.

(** X6: when the left version has no more components than the right one,
    both being sequences of integers, the comparator returns the comparison
    of the components from the left; in particular a version is not less
    than a longer version that starts with it. *)
Theorem lt_on_not_longer_left (a b : JarFile.t) (xs ys : list Z) :
  version_numbers (JarFile.version a) = Some xs ->
  version_numbers (JarFile.version b) = Some ys ->
  (length xs <= length ys)%nat ->
  JarFile.__lt__ a b = Ok (spec_version_lt xs ys)
  /\ (forall extra, ys = xs ++ extra -> JarFile.__lt__ a b = Ok false).
Proof.
  intros Ha Hb Hlen. rewrite (lt_spec a b xs ys Ha Hb Hlen). split; [reflexivity|].
  intros extra ->. now rewrite spec_version_lt_prefix.
Qed.

Lemma lt_on_not_longer_left_witness :
  JarFile.__lt__ (jar_of_version "1.2") (jar_of_version "1.2.5")
  = Ok (spec_version_lt [1; 2] [1; 2; 5])
  /\ (forall extra, [1; 2; 5] = [1; 2] ++ extra ->
                    JarFile.__lt__ (jar_of_version "1.2") (jar_of_version "1.2.5")
                    = Ok false).
Proof.
  apply (lt_on_not_longer_left (jar_of_version "1.2") (jar_of_version "1.2.5")
           [1; 2] [1; 2; 5]); [reflexivity | reflexivity | simpl; lia].
Defined.

(** X7: when the right version is a sequence of integers and the left one
    is the same sequence followed by more components, the comparator
    raises IndexError. *)
Theorem lt_index_error_on_longer_left (a b : JarFile.t) (ys : list Z) (x : Z)
    (extra : list Z) :
  version_numbers (JarFile.version a) = Some (ys ++ x :: extra) ->
  version_numbers (JarFile.version b) = Some ys ->
  JarFile.__lt__ a b = Raise IndexError.
Proof.
  intros Ha Hb. unfold JarFile.__lt__.
  eapply lt_loop_index_error; eauto using version_numbers_Forall2.
Qed.

Lemma lt_index_error_on_longer_left_witness :
  JarFile.__lt__ (jar_of_version "3.0.1") (jar_of_version "3.0") = Raise IndexError.
Proof.
  apply (lt_index_error_on_longer_left (jar_of_version "3.0.1") (jar_of_version "3.0")
           [3; 0] 1 []); reflexivity.
Defined.

(** X8: when two versions that are sequences of integers differ at some
    component and agree before it, that component decides, whatever the
    number of components after it on either side. *)
Theorem lt_first_difference_decides (a b : JarFile.t) (p : list Z) (x y : Z)
    (xs ys : list Z) :
  version_numbers (JarFile.version a) = Some (p ++ x :: xs) ->
  version_numbers (JarFile.version b) = Some (p ++ y :: ys) ->
  x <> y ->
  JarFile.__lt__ a b = Ok (x <? y).
Proof.
  intros Ha Hb Hne. unfold JarFile.__lt__.
  eapply lt_loop_first_difference; eauto using version_numbers_Forall2.
Qed.

Lemma lt_first_difference_decides_witness :
  JarFile.__lt__ (jar_of_version "1.9.0.1") (jar_of_version "1.10") = Ok (9 <? 10).
Proof.
  apply (lt_first_difference_decides (jar_of_version "1.9.0.1") (jar_of_version "1.10")
           [1] 9 10 [0; 1] []); [reflexivity | reflexivity | lia].
Defined.

Lemma int_raises_ValueError (s : string) (e : exn) :
  builtins.int s = Raise e -> e = ValueError.
Proof.
  unfold builtins.int. destruct s; [now intros [= <-]|].
  destruct (builtins.int_digits _ _); [discriminate | now intros [= <-]].
Qed.

Lemma lt_empty_version_left (a b : JarFile.t) :
  JarFile.version a = "" -> JarFile.__lt__ a b = Raise ValueError.
Proof.
  intros Ha. unfold JarFile.__lt__. rewrite Ha. simpl.
  destruct (builtins.split "." (JarFile.version b)) as [|o oc] eqn:Hs.
  - now apply split_nonempty in Hs.
  - reflexivity.
Qed.

Lemma lt_empty_version_right (a b : JarFile.t) :
  JarFile.version a = "" -> JarFile.__lt__ b a = Raise ValueError.
Proof.
  intros Ha. unfold JarFile.__lt__. rewrite Ha. simpl.
  destruct (builtins.split "." (JarFile.version b)) as [|c vc] eqn:Hs.
  - now apply split_nonempty in Hs.
  - simpl. destruct (builtins.int c) as [x|e] eqn:Hc; simpl; [reflexivity|].
    now rewrite (int_raises_ValueError _ _ Hc).
Qed.

Lemma max_loop_raises_on_empty_version (a : JarFile.t) (items : list JarFile.t) :
  JarFile.version a = "" -> In a items ->
  forall maxitem, exists e, builtins.max_loop JarFile.__lt__ maxitem items = Raise e.
Proof.
  intros Ha. induction items as [|item rest IH]; intros Hin maxitem; [destruct Hin|].
  simpl. destruct Hin as [-> | Hin].
  - rewrite (lt_empty_version_right a maxitem Ha). simpl. eauto.
  - destruct (JarFile.__lt__ maxitem item) as [b|e]; simpl; [|eauto].
    now apply IH.
Qed.

(** X9: an artifact whose version is empty (a file such as foo-.jar)
    cannot be compared: on either side of any artifact the comparator
    raises ValueError. The selection of the latest artifact therefore raises
    as soon as such an artifact has company among the candidates. *)
Theorem empty_version_breaks_selection (a : JarFile.t) :
  JarFile.version a = "" ->
  (forall b, JarFile.__lt__ a b = Raise ValueError
             /\ JarFile.__lt__ b a = Raise ValueError)
  /\ (forall items, In a items -> (2 <= length items)%nat ->
                    exists e, builtins.max JarFile.__lt__ items = Raise e).
Proof.
  intros Ha. split.
  - intros b. split; [now apply lt_empty_version_left | now apply lt_empty_version_right].
  - intros [|first [|second rest]] Hin Hlen; simpl in Hlen; try lia.
    unfold builtins.max. destruct Hin as [-> | Hin].
    + simpl. rewrite (lt_empty_version_left a second Ha). simpl. eauto.
    + now apply max_loop_raises_on_empty_version with a.
Qed.

Lemma empty_version_breaks_selection_witness :
  (forall b, JarFile.__lt__ (jar_of_version "") b = Raise ValueError
             /\ JarFile.__lt__ b (jar_of_version "") = Raise ValueError)
  /\ (forall items, In (jar_of_version "") items -> (2 <= length items)%nat ->
                    exists e, builtins.max JarFile.__lt__ items = Raise e).
Proof.
  apply (empty_version_breaks_selection (jar_of_version "")). reflexivity.
Defined.

(** ** The selection among versions of the same length *)

Lemma lt_has_numbers (n : nat) (a b : JarFile.t) :
  has_numbers n a -> has_numbers n b ->
  exists xs ys,
    version_numbers (JarFile.version a) = Some xs
    /\ version_numbers (JarFile.version b) = Some ys
    /\ length xs = n /\ length ys = n
    /\ JarFile.__lt__ a b = Ok (spec_version_lt xs ys).
Proof.
  intros (xs & Ha & Hx) (ys & Hb & Hy). exists xs, ys.
  repeat split; try assumption. apply lt_spec; [assumption | assumption | lia].
Qed.

(** Not less on the left and on the right. *)
Lemma spec_version_lt_neg_trans (xs ys zs : list Z) :
  length xs = length ys -> length ys = length zs ->
  spec_version_lt xs ys = false -> spec_version_lt ys zs = false ->
  spec_version_lt xs zs = false.
Proof.
  intros Hxy Hyz H1 H2.
  destruct (spec_version_lt xs zs) eqn:H; [|reflexivity].
  destruct (spec_version_lt_total ys zs Hyz) as [H3|[H3| ->]]; [congruence| |congruence].
  rewrite (spec_version_lt_trans _ _ _ H H3) in H1. discriminate H1.
Qed.

Lemma max_loop_greatest (n : nat) (items : list JarFile.t) :
  Forall (has_numbers n) items ->
  forall maxitem, has_numbers n maxitem ->
    exists r,
      builtins.max_loop JarFile.__lt__ maxitem items = Ok r
      /\ has_numbers n r
      /\ (r = maxitem \/ In r items)
      /\ JarFile.__lt__ r maxitem = Ok false
      /\ (forall y, In y items -> JarFile.__lt__ r y = Ok false).
Proof.
  induction items as [|item rest IH]; intros Hall maxitem Hm.
  - exists maxitem. simpl. repeat split; auto.
    + destruct (lt_has_numbers n _ _ Hm Hm) as (xs & ys & Ha & Hb & _ & _ & ->).
      rewrite Ha in Hb. injection Hb as <-. now rewrite spec_version_lt_irrefl.
    + intros y [].
  - inversion Hall as [|? ? Hitem Hrest]; subst.
    simpl.
    destruct (lt_has_numbers n _ _ Hm Hitem) as (ms & is_ & Hms & His & Hlm & Hli & Hlt).
    rewrite Hlt. simpl.
    destruct (spec_version_lt ms is_) eqn:Hb.
    + destruct (IH Hrest item Hitem) as (r & Hrun & Hr & Hmem & Hri & Hry).
      exists r. repeat split; try assumption.
      * destruct Hmem as [-> | Hmem]; [right; now left | right; now right].
      * destruct (lt_has_numbers n _ _ Hr Hm) as (rs & ms' & Hrs & Hms' & Hlr & _ & ->).
        destruct (lt_has_numbers n _ _ Hr Hitem) as (rs' & is' & Hrs' & His' & _ & _ & Hlt').
        rewrite Hms in Hms'. injection Hms' as <-.
        rewrite Hrs in Hrs'. injection Hrs' as <-.
        rewrite His in His'. injection His' as <-.
        rewrite Hlt' in Hri. injection Hri as Hri. f_equal.
        destruct (spec_version_lt rs ms) eqn:H; [|reflexivity].
        rewrite (spec_version_lt_trans _ _ _ H Hb) in Hri. discriminate Hri.
      * intros y [<- | Hy]; [exact Hri | now apply Hry].
    + destruct (IH Hrest maxitem Hm) as (r & Hrun & Hr & Hmem & Hrm & Hry).
      exists r. repeat split; try assumption.
      * destruct Hmem as [-> | Hmem]; [now left | right; now right].
      * intros y [<- | Hy]; [|now apply Hry].
        destruct (lt_has_numbers n _ _ Hr Hm) as (rs & ms' & Hrs & Hms' & Hlr & _ & Hlt1).
        destruct (lt_has_numbers n _ _ Hr Hitem) as (rs' & is' & Hrs' & His' & _ & _ & ->).
        rewrite Hms in Hms'. injection Hms' as <-.
        rewrite Hrs in Hrs'. injection Hrs' as <-.
        rewrite His in His'. injection His' as <-.
        rewrite Hlt1 in Hrm. injection Hrm as Hrm. f_equal.
        apply (spec_version_lt_neg_trans rs ms is_); congruence.
Qed.

Lemma max_greatest (n : nat) (items : list JarFile.t) :
  Forall (has_numbers n) items -> items <> [] ->
  exists r,
    builtins.max JarFile.__lt__ items = Ok r
    /\ has_numbers n r /\ In r items
    /\ (forall y, In y items -> JarFile.__lt__ r y = Ok false).
Proof.
  intros Hall Hne. destruct items as [|first rest]; [contradiction|].
  inversion Hall as [|? ? Hfirst Hrest]; subst.
  destruct (max_loop_greatest n rest Hrest first Hfirst) as (r & Hrun & Hr & Hmem & Hrf & Hry).
  exists r. simpl. repeat split; try assumption.
  - destruct Hmem as [-> | Hmem]; [now left | now right].
  - intros y [<- | Hy]; [exact Hrf | now apply Hry].
Qed.

(** X10: when the candidates are not none and their versions are all
    sequences of the same number of integers, the selection returns one of
    the candidates, and no candidate is greater than it for the comparator. *)
Theorem max_returns_a_greatest_candidate (n : nat) (items : list JarFile.t) :
  Forall (has_numbers n) items -> items <> [] ->
  exists r,
    builtins.max JarFile.__lt__ items = Ok r
    /\ In r items
    /\ (forall y, In y items -> JarFile.__lt__ r y = Ok false).
Proof.
  intros Hall Hne. destruct (max_greatest n items Hall Hne) as (r & Hrun & _ & Hin & Hry).
  now exists r.
Qed.

Lemma max_returns_a_greatest_candidate_witness :
  exists r,
    builtins.max JarFile.__lt__
      [jar_of_version "1.9"; jar_of_version "1.10"; jar_of_version "1.2"] = Ok r
    /\ In r [jar_of_version "1.9"; jar_of_version "1.10"; jar_of_version "1.2"]
    /\ (forall y, In y [jar_of_version "1.9"; jar_of_version "1.10"; jar_of_version "1.2"] ->
                  JarFile.__lt__ r y = Ok false).
Proof.
  apply (max_returns_a_greatest_candidate 2
           [jar_of_version "1.9"; jar_of_version "1.10"; jar_of_version "1.2"]).
  - repeat constructor; eexists; split; reflexivity.
  - discriminate.
Defined.

Lemma Forall_has_numbers_perm (n : nat) (items items' : list JarFile.t) :
  items ≡ₚ items' -> Forall (has_numbers n) items -> Forall (has_numbers n) items'.
Proof. intros Hp H. now rewrite <- Hp. Qed.

(** X11: the order in which the directory is enumerated does not change
    the version that is selected: when the versions of the candidates are
    all sequences of the same number of integers, the selections from two
    orders of the same candidates both succeed and have the same numbers.
    (The artifacts themselves may differ: among equal versions the first
    one met is kept.) *)
Theorem selected_version_independent_of_order (n : nat) (items items' : list JarFile.t) :
  Forall (has_numbers n) items -> items <> [] -> items ≡ₚ items' ->
  exists r r',
    builtins.max JarFile.__lt__ items = Ok r
    /\ builtins.max JarFile.__lt__ items' = Ok r'
    /\ version_numbers (JarFile.version r) = version_numbers (JarFile.version r').
Proof.
  intros Hall Hne Hperm.
  assert (Hall' : Forall (has_numbers n) items')
    by now apply Forall_has_numbers_perm with items.
  assert (Hne' : items' <> []).
  { intros ->. apply Permutation_nil_r in Hperm. contradiction. }
  destruct (max_greatest n items Hall Hne) as (r & Hrun & Hr & Hin & Hry).
  destruct (max_greatest n items' Hall' Hne') as (r' & Hrun' & Hr' & Hin' & Hry').
  exists r, r'. split; [exact Hrun|]. split; [exact Hrun'|].
  assert (H1 : JarFile.__lt__ r r' = Ok false).
  { apply Hry. apply (Permutation_in _ (Permutation_sym Hperm)), Hin'. }
  assert (H2 : JarFile.__lt__ r' r = Ok false).
  { apply Hry'. apply (Permutation_in _ Hperm), Hin. }
  destruct (lt_has_numbers n _ _ Hr Hr') as (rs & rs' & Hrs & Hrs' & Hl & Hl' & Hlt).
  destruct (lt_has_numbers n _ _ Hr' Hr) as (qs' & qs & Hqs' & Hqs & _ & _ & Hlt').
  rewrite Hrs in Hqs. injection Hqs as <-. rewrite Hrs' in Hqs'. injection Hqs' as <-.
  rewrite Hlt in H1. rewrite Hlt' in H2. injection H1 as H1. injection H2 as H2.
  rewrite Hrs, Hrs'. f_equal.
  destruct (spec_version_lt_total rs rs') as [H|[H|H]]; congruence.
Qed.

Lemma selected_version_independent_of_order_witness :
  exists r r',
    builtins.max JarFile.__lt__ [jar_of_version "1.9"; jar_of_version "1.10"] = Ok r
    /\ builtins.max JarFile.__lt__ [jar_of_version "1.10"; jar_of_version "1.9"] = Ok r'
    /\ version_numbers (JarFile.version r) = version_numbers (JarFile.version r').
Proof.
  apply (selected_version_independent_of_order 2
           [jar_of_version "1.9"; jar_of_version "1.10"]
           [jar_of_version "1.10"; jar_of_version "1.9"]).
  - repeat constructor; eexists; split; reflexivity.
  - discriminate.
  - apply perm_swap.
Defined.

(** * Further properties of the operations *)

(** X12: the two scans read only: whatever they return or raise, in any
    world, the file system is as before, and the standard output has only
    grown. *)
Theorem scans_change_no_file (HOME package project build_dir : string) (w : World) :
  fs (snd (find_latest_jar HOME package project w)) = fs w
  /\ fs (snd (get_latest_build_jar build_dir w)) = fs w
  /\ (exists out, stdout (snd (find_latest_jar HOME package project w)) = stdout w ++ out)
  /\ (exists out, stdout (snd (get_latest_build_jar build_dir w)) = stdout w ++ out).
Proof.
  destruct (find_latest_jar_eq HOME package project w) as [out Hf].
  rewrite Hf, get_latest_build_jar_eq. simpl. repeat split; eauto.
Qed.



(** ** What the operations leave alone *)

Lemma only_changes_refl d w w' : fs w' = fs w -> only_changes d w w'.
Proof. intros H d' _. now rewrite H. Qed.

Lemma only_changes_trans d w1 w2 w3 :
  only_changes d w1 w2 -> only_changes d w2 w3 -> only_changes d w1 w3.
Proof. intros H1 H2 d' Hd. rewrite (H2 d' Hd). now apply H1. Qed.

Lemma bind_only_changes {A B} (d : string) (m : M A) (f : A -> M B) :
  (forall w, only_changes d w (snd (m w))) ->
  (forall a w, only_changes d w (snd (f a w))) ->
  forall w, only_changes d w (snd ((m ≫= f) w)).
Proof.
  intros Hm Hf w. unfold mbind, M_bind.
  specialize (Hm w). destruct (m w) as [[a|e] w1]; simpl in *; [|exact Hm].
  eapply only_changes_trans; [exact Hm | apply Hf].
Qed.

Lemma print_only_changes d line w : only_changes d w (snd (print line w)).
Proof. now apply only_changes_refl. Qed.

Lemma move_only_changes d n n' w :
  only_changes d w (snd (shutil.move (d, n) (d, n') w)).
Proof.
  unfold shutil.move. simpl.
  destruct (file_at (fs w) (d, n)); [|now apply only_changes_refl].
  destruct (fs w !! d); [|now apply only_changes_refl].
  intros d' Hd. simpl. rewrite write_file_lookup_ne, remove_file_lookup_ne; auto.
Qed.

Lemma copy_only_changes src d n w :
  only_changes d w (snd (shutil.copy src (d, n) w)).
Proof.
  unfold shutil.copy. simpl.
  destruct (file_at (fs w) src); [|now apply only_changes_refl].
  destruct (fs w !! d); [|now apply only_changes_refl].
  destruct (bool_decide (src = (d, n))); [now apply only_changes_refl|].
  intros d' Hd. simpl. now rewrite write_file_lookup_ne.
Qed.

Lemma create_backup_only_changes j d force w :
  only_changes d w (snd (JarFile.create_backup j d force w)).
Proof.
  unfold JarFile.create_backup. apply bind_only_changes.
  - intros w0. now apply only_changes_refl.
  - intros b w0. destruct (b && negb force)%bool.
    + apply print_only_changes.
    + apply bind_only_changes; [intros; apply print_only_changes|].
      intros _ w1. apply move_only_changes.
Qed.

Lemma JarFile_copy_only_changes j source d w :
  only_changes d w (snd (JarFile.copy j source d w)).
Proof.
  unfold JarFile.copy. apply bind_only_changes.
  - intros; apply print_only_changes.
  - intros _ w1. apply copy_only_changes.
Qed.

Lemma restore_from_backup_only_changes j d w :
  only_changes d w (snd (JarFile.restore_from_backup j d w)).
Proof.
  unfold JarFile.restore_from_backup. apply bind_only_changes.
  - intros w0. now apply only_changes_refl.
  - intros b w0. apply bind_only_changes.
    + intros w1. destruct (negb b); [|now apply only_changes_refl].
      apply bind_only_changes; [intros; apply print_only_changes|].
      intros _ w2. now apply only_changes_refl.
    + intros _ w1. apply bind_only_changes; [intros; apply print_only_changes|].
      intros _ w2. apply move_only_changes.
Qed.

Lemma find_latest_jar_only_changes HOME package project d w :
  only_changes d w (snd (find_latest_jar HOME package project w)).
Proof.
  apply only_changes_refl.
  destruct (find_latest_jar HOME package project w) as [r w1] eqn:H.
  now destruct (find_latest_jar_frame _ _ _ _ _ _ H).
Qed.

Lemma get_latest_build_jar_only_changes build_dir d w :
  only_changes d w (snd (get_latest_build_jar build_dir w)).
Proof. apply only_changes_refl. now rewrite get_latest_build_jar_eq. Qed.

Lemma guard_only_changes d (b : bool) (line : string) w :
  only_changes d w
    (snd ((if b then _ ← print line; exit 1 else mret tt : M unit) w)).
Proof.
  destruct b; [|now apply only_changes_refl].
  apply bind_only_changes; [intros; apply print_only_changes|].
  intros _ w1. now apply only_changes_refl.
Qed.

Lemma create_backup_and_replace_only_changes
    HOME cache_dir build_dir package project force w :
  only_changes (destination cache_dir package project) w
    (snd (create_backup_and_replace HOME cache_dir build_dir package project force w)).
Proof.
  unfold create_backup_and_replace. fold (destination cache_dir package project).
  apply bind_only_changes; [intros; apply get_latest_build_jar_only_changes|].
  intros latest_jar w1. apply bind_only_changes; [intros; apply guard_only_changes|].
  intros _ w2. apply bind_only_changes; [intros; apply find_latest_jar_only_changes|].
  intros current_jar w3. apply bind_only_changes; [intros; apply guard_only_changes|].
  intros _ w4. apply bind_only_changes; [intros; apply create_backup_only_changes|].
  intros _ w5. apply JarFile_copy_only_changes.
Qed.

Lemma restore_latest_backup_only_changes HOME cache_dir package project w :
  only_changes (destination cache_dir package project) w
    (snd (restore_latest_backup HOME cache_dir package project w)).
Proof.
  unfold restore_latest_backup. fold (destination cache_dir package project).
  apply bind_only_changes; [intros; apply find_latest_jar_only_changes|].
  intros latest_jar w1. apply restore_from_backup_only_changes.
Qed.

(** X14: whatever happens, success or failure, in any world, a replace
    and a restore change nothing outside the jars directory of the cache
    root they are given: every other directory, the build directory among
    them when it is another one, holds the files it held. *)
Theorem operations_change_the_destination_only
    (HOME cache_dir build_dir package project : string) (force : bool) (w : World)
    (d : string) :
  d <> destination cache_dir package project ->
  fs (snd (create_backup_and_replace HOME cache_dir build_dir package project force w))
    !! d = fs w !! d
  /\ fs (snd (restore_latest_backup HOME cache_dir package project w)) !! d = fs w !! d.
Proof.
  intros Hd. split.
  - now apply create_backup_and_replace_only_changes.
  - now apply restore_latest_backup_only_changes.
Qed.

Lemma operations_change_the_destination_only_witness :
  fs (snd (create_backup_and_replace home "/srv/cache" build "org.example" "foo" true
             world_two_caches)) !! build = fs world_two_caches !! build
  /\ fs (snd (restore_latest_backup home "/srv/cache" "org.example" "foo"
                world_two_caches)) !! build = fs world_two_caches !! build.
Proof.
  apply (operations_change_the_destination_only home "/srv/cache" build
           "org.example" "foo" true world_two_caches build).
  vm_compute. intros H. discriminate H.
Defined.

(** ** Replace, with a backup made *)

(** The artifact that a scan of the cache returns was made of its own file
    name. *)
Lemma find_latest_jar_parsed HOME package project w w1 current_jar :
  find_latest_jar HOME package project w = (Ok current_jar, w1) ->
  parsed (JarFile.filename current_jar) = Some current_jar.
Proof.
  destruct (find_latest_jar_eq HOME package project w) as [out ->].
  destruct (fs w !! scan_dir HOME package project); [|discriminate].
  intros [= Hmax _]. apply max_In, In_candidates in Hmax.
  destruct Hmax as (name & _ & Hp). now rewrite (parsed_filename _ _ Hp).
Qed.

(** The names of a live artifact of one line. *)
Lemma live_artifact_names (j : JarFile.t) :
  parsed (JarFile.filename j) = Some j ->
  single_line (chars (JarFile.filename j)) = true ->
  JarFile.extension j = ".jar" ->
  JarFile.filename j = JarFile.construct_filename j
  /\ JarFile.filename j +:+ ".bak" = JarFile.construct_backup_filename j.
Proof.
  intros Hp Hline Hext.
  destruct (parsed_single_line _ _ Hline Hp) as (_ & Hname & _).
  rewrite Hext in Hname.
  unfold JarFile.construct_filename, JarFile.construct_backup_filename.
  split; [exact Hname|]. rewrite Hname at 1.
  rewrite !string_app_assoc. reflexivity.
Qed.

(** The names of a backup artifact of one line. *)
Lemma backup_artifact_names (j : JarFile.t) :
  parsed (JarFile.filename j) = Some j ->
  single_line (chars (JarFile.filename j)) = true ->
  JarFile.extension j = ".jar.bak" ->
  JarFile.filename j = JarFile.construct_backup_filename j.
Proof.
  intros Hp Hline Hext.
  destruct (parsed_single_line _ _ Hline Hp) as (_ & Hname & _).
  now rewrite Hext in Hname.
Qed.

(** The operation when the backup step moves the file of the current
    artifact: the file goes to its name followed by .bak, and the build
    artifact is copied to the live name. *)
Lemma replace_moves_then_copies
    (HOME cache_dir build_dir package project : string) (force : bool)
    (w w1 w2 : World) (latest_jar current_jar : JarFile.t) (cur : string) :
  listdir_consistent w ->
  get_latest_build_jar build_dir w = (Ok latest_jar, w1) ->
  find_latest_jar HOME package project w1 = (Ok current_jar, w2) ->
  file_at (fs w) (destination cache_dir package project, JarFile.filename current_jar)
  = Some cur ->
  file_at (fs w) (destination cache_dir package project,
                  JarFile.construct_backup_filename current_jar) = None
  \/ force = true ->
  build_dir <> destination cache_dir package project ->
  exists (new : string) (w' : World),
    file_at (fs w) (build_dir, JarFile.filename latest_jar) = Some new
    /\ create_backup_and_replace HOME cache_dir build_dir package project force w
       = (Ok tt, w')
    /\ fs w'
       = shutil.write_file (destination cache_dir package project,
                            JarFile.construct_filename current_jar) new
           (shutil.write_file (destination cache_dir package project,
                               JarFile.filename current_jar +:+ ".bak") cur
              (shutil.remove_file (destination cache_dir package project,
                                   JarFile.filename current_jar) (fs w))).
Proof.
  intros Hcons Hbuild Hfind Hcur Hcase Hdirs.
  set (dest := destination cache_dir package project) in *.
  destruct (get_latest_build_jar_frame _ _ _ _ Hbuild) as [Hfs1 Hord1].
  destruct (find_latest_jar_frame _ _ _ _ _ _ Hfind) as [Hfs2 Hord2].
  assert (Hnew : is_Some (file_at (fs w) (build_dir, JarFile.filename latest_jar))).
  { rewrite get_latest_build_jar_eq in Hbuild.
    destruct (fs w !! build_dir) as [files|] eqn:Hdir; [|discriminate].
    injection Hbuild as Hmax _.
    apply listed_file_exists; [assumption | rewrite Hdir; eauto |].
    apply In_build_candidates. now apply max_In in Hmax. }
  destruct Hnew as [new Hnew]. exists new.
  destruct (create_backup_move current_jar dest force w2 cur) as [out1 Hmove].
  { rewrite Hfs2, Hfs1. exact Hcase. }
  { now rewrite Hfs2, Hfs1. }
  set (w3 := {| fs := _ |}) in Hmove.
  assert (Hdest : is_Some (fs w !! dest)) by apply (file_at_dir _ _ _ Hcur).
  destruct (copy_ok (JarFile.set_identity latest_jar (JarFile.basename current_jar)
                                          (JarFile.version current_jar))
                    build_dir dest w3 new) as [out2 Hcopy].
  { simpl. rewrite Hfs2, Hfs1.
    rewrite file_at_write_ne, file_at_remove_ne by congruence. exact Hnew. }
  { simpl. rewrite Hfs2, Hfs1. destruct Hdest as [files Hd].
    erewrite write_file_lookup_eq; [eauto|]. apply remove_file_lookup_eq. exact Hd. }
  { simpl. congruence. }
  eexists. split; [exact Hnew|]. split.
  { rewrite (create_backup_and_replace_eq _ _ _ _ _ _ _ _ _ _ _ Hbuild Hfind).
    fold dest. rewrite Hmove. exact Hcopy. }
  simpl. now rewrite Hfs2, Hfs1.
Qed.

(** X15: a replace with force, or without a backup in the way, on a current
    artifact that is a live one of one line: the operation succeeds; the
    backup name then holds what the live name held, a former backup being
    overwritten; the live name holds the content of the latest build; every
    other file is as it was. (The build directory is not the jars
    directory.) *)
Theorem replace_refreshes_backup
    (HOME cache_dir build_dir package project : string) (force : bool)
    (w w1 w2 : World) (latest_jar current_jar : JarFile.t) (cur : string) :
  listdir_consistent w ->
  get_latest_build_jar build_dir w = (Ok latest_jar, w1) ->
  find_latest_jar HOME package project w1 = (Ok current_jar, w2) ->
  single_line (chars (JarFile.filename current_jar)) = true ->
  JarFile.extension current_jar = ".jar" ->
  file_at (fs w) (destination cache_dir package project,
                  JarFile.construct_filename current_jar) = Some cur ->
  file_at (fs w) (destination cache_dir package project,
                  JarFile.construct_backup_filename current_jar) = None
  \/ force = true ->
  build_dir <> destination cache_dir package project ->
  exists (new : string) (w' : World),
    file_at (fs w) (build_dir, JarFile.filename latest_jar) = Some new
    /\ create_backup_and_replace HOME cache_dir build_dir package project force w
       = (Ok tt, w')
    /\ file_at (fs w') (destination cache_dir package project,
                        JarFile.construct_backup_filename current_jar) = Some cur
    /\ file_at (fs w') (destination cache_dir package project,
                        JarFile.construct_filename current_jar) = Some new
    /\ (forall p,
          p <> (destination cache_dir package project,
                JarFile.construct_filename current_jar) ->
          p <> (destination cache_dir package project,
                JarFile.construct_backup_filename current_jar) ->
          file_at (fs w') p = file_at (fs w) p).
Proof.
  intros Hcons Hbuild Hfind Hline Hext Hcur Hcase Hdirs.
  destruct (live_artifact_names current_jar (find_latest_jar_parsed _ _ _ _ _ _ Hfind)
              Hline Hext) as [Hlive Hbak].
  rewrite <- Hlive in Hcur.
  destruct (replace_moves_then_copies _ _ _ _ _ _ _ _ _ _ _ _ Hcons Hbuild Hfind
              Hcur Hcase Hdirs) as (new & w' & Hnew & Hrun & Hfs).
  rewrite Hbak, Hlive in Hfs.
  set (dest := destination cache_dir package project) in *.
  assert (Hne : (dest, JarFile.construct_filename current_jar)
                <> (dest, JarFile.construct_backup_filename current_jar)).
  { intros [= H]. now apply live_name_not_backup_name in H. }
  assert (Hd : is_Some (fs w !! dest)) by apply (file_at_dir _ _ _ Hcur).
  exists new, w'. split; [exact Hnew|]. split; [exact Hrun|]. rewrite Hfs.
  split; [|split].
  - rewrite file_at_write_ne by exact Hne. apply file_at_write_eq.
    simpl. now apply remove_file_dir.
  - apply file_at_write_eq. simpl. destruct Hd as [files Hd].
    erewrite write_file_lookup_eq; [eauto|]. apply remove_file_lookup_eq. exact Hd.
  - intros p Hp1 Hp2.
    rewrite file_at_write_ne, file_at_write_ne, file_at_remove_ne by congruence.
    reflexivity.
Qed.

Lemma replace_refreshes_backup_witness :
  exists (new : string) (w' : World),
    create_backup_and_replace home (IVY_CACHE home) build "org.example" "foo" true
      world_build_backup = (Ok tt, w')
    /\ file_at (fs w') (default_slot, "foo-1.2.jar.bak") = Some "current"
    /\ file_at (fs w') (default_slot, "foo-1.2.jar") = Some new.
Proof.
  destruct (replace_refreshes_backup home (IVY_CACHE home) build "org.example" "foo" true
              world_build_backup
              (snd (get_latest_build_jar build world_build_backup))
              (snd (find_latest_jar home "org.example" "foo"
                      (snd (get_latest_build_jar build world_build_backup))))
              jar_foo_1_3 jar_foo_1_2 "current")
    as (new & w' & _ & Hrun & Hbak & Hlive & _).
  - apply world_of_consistent. apply (bool_decide_unpack _). vm_compute. exact I.
  - vm_compute. reflexivity.
  - vm_compute. reflexivity.
  - reflexivity.
  - reflexivity.
  - vm_compute. reflexivity.
  - right. reflexivity.
  - vm_compute. intros H. discriminate H.
  - exists new, w'. repeat split; assumption.
Defined.

Lemma live_name_not_bak_suffix (a : JarFile.t) (s : string) :
  JarFile.construct_filename a <> s +:+ ".bak".
Proof.
  unfold JarFile.construct_filename. intros H.
  apply (f_equal (fun s => rev (chars s))) in H.
  rewrite !chars_app, !rev_app_distr in H. simpl in H. discriminate H.
Qed.

Lemma name_not_bak_suffix (s : string) : s <> s +:+ ".bak".
Proof.
  intros H. apply (f_equal (fun s => length (chars s))) in H.
  rewrite chars_app, length_app in H. simpl in H. lia.
Qed.

(** X16: a replace with force when the scan of the cache has kept a backup
    file as the current artifact (a backup has the version of its live
    artifact, and the first of equals is kept): what is moved is the backup
    file itself, to its name followed by .bak; the backup name is then free
    and the live name is overwritten by the build. (The build directory is
    not the jars directory.) *)
Theorem forced_replace_on_backup_artifact
    (HOME cache_dir build_dir package project : string)
    (w w1 w2 : World) (latest_jar current_jar : JarFile.t) (bak : string) :
  listdir_consistent w ->
  get_latest_build_jar build_dir w = (Ok latest_jar, w1) ->
  find_latest_jar HOME package project w1 = (Ok current_jar, w2) ->
  single_line (chars (JarFile.filename current_jar)) = true ->
  JarFile.extension current_jar = ".jar.bak" ->
  file_at (fs w) (destination cache_dir package project,
                  JarFile.construct_backup_filename current_jar) = Some bak ->
  build_dir <> destination cache_dir package project ->
  exists (new : string) (w' : World),
    file_at (fs w) (build_dir, JarFile.filename latest_jar) = Some new
    /\ create_backup_and_replace HOME cache_dir build_dir package project true w
       = (Ok tt, w')
    /\ file_at (fs w') (destination cache_dir package project,
                        JarFile.construct_backup_filename current_jar +:+ ".bak")
       = Some bak
    /\ file_at (fs w') (destination cache_dir package project,
                        JarFile.construct_backup_filename current_jar) = None
    /\ file_at (fs w') (destination cache_dir package project,
                        JarFile.construct_filename current_jar) = Some new.
Proof.
  intros Hcons Hbuild Hfind Hline Hext Hbak Hdirs.
  pose proof (backup_artifact_names current_jar
                (find_latest_jar_parsed _ _ _ _ _ _ Hfind) Hline Hext) as Hname.
  rewrite <- Hname in Hbak.
  destruct (replace_moves_then_copies _ _ _ _ _ true _ _ _ _ _ _ Hcons Hbuild Hfind
              Hbak (or_intror eq_refl) Hdirs) as (new & w' & Hnew & Hrun & Hfs).
  rewrite Hname in Hfs, Hbak.
  set (dest := destination cache_dir package project) in *.
  set (bakname := JarFile.construct_backup_filename current_jar) in *.
  assert (Hd : is_Some (fs w !! dest)) by apply (file_at_dir _ _ _ Hbak).
  assert (H1 : (dest, JarFile.construct_filename current_jar) <> (dest, bakname +:+ ".bak")).
  { intros [= H]. now apply live_name_not_bak_suffix in H. }
  assert (H2 : (dest, JarFile.construct_filename current_jar) <> (dest, bakname)).
  { intros [= H]. now apply live_name_not_backup_name in H. }
  assert (H3 : (dest, bakname +:+ ".bak") <> (dest, bakname)).
  { intros [= H]. symmetry in H. now apply name_not_bak_suffix in H. }
  exists new, w'. split; [exact Hnew|]. split; [exact Hrun|]. rewrite Hfs.
  split; [|split].
  - rewrite file_at_write_ne by exact H1. apply file_at_write_eq.
    simpl. now apply remove_file_dir.
  - rewrite file_at_write_ne by exact H2. rewrite file_at_write_ne by exact H3.
    apply file_at_remove_eq.
  - apply file_at_write_eq. simpl. destruct Hd as [files Hd].
    erewrite write_file_lookup_eq; [eauto|]. apply remove_file_lookup_eq. exact Hd.
Qed.

Lemma forced_replace_on_backup_artifact_witness :
  exists (new : string) (w' : World),
    create_backup_and_replace home (IVY_CACHE home) build "org.example" "foo" true
      world_backup_first = (Ok tt, w')
    /\ file_at (fs w') (default_slot, "foo-1.2.jar.bak.bak") = Some "old"
    /\ file_at (fs w') (default_slot, "foo-1.2.jar.bak") = None
    /\ file_at (fs w') (default_slot, "foo-1.2.jar") = Some new.
Proof.
  destruct (forced_replace_on_backup_artifact home (IVY_CACHE home) build
              "org.example" "foo" world_backup_first
              (snd (get_latest_build_jar build world_backup_first))
              (snd (find_latest_jar home "org.example" "foo"
                      (snd (get_latest_build_jar build world_backup_first))))
              jar_foo_1_3 jar_foo_1_2_bak "old")
    as (new & w' & _ & Hrun & Hbb & Hb & Hlive).
  - apply world_of_consistent. apply (bool_decide_unpack _). vm_compute. exact I.
  - vm_compute. reflexivity.
  - vm_compute. reflexivity.
  - reflexivity.
  - reflexivity.
  - vm_compute. reflexivity.
  - vm_compute. intros H. discriminate H.
  - exists new, w'. repeat split; assumption.
Defined.

(** ** Replace, then restore *)

Lemma write_file_insert f d n c files :
  f !! d = Some files -> shutil.write_file (d, n) c f = <[d := <[n := c]> files]> f.
Proof. intros H. unfold shutil.write_file. simpl. now rewrite H. Qed.

Lemma remove_file_insert f d n files :
  f !! d = Some files -> shutil.remove_file (d, n) f = <[d := delete n files]> f.
Proof. intros H. unfold shutil.remove_file. simpl. now rewrite H. Qed.

(** Moving the backup back undoes the move to the backup and the copy. *)
Lemma restore_undoes_replace (f : gmap string (gmap string string))
    (d live bak cur new : string) :
  live <> bak ->
  file_at f (d, live) = Some cur ->
  file_at f (d, bak) = None ->
  shutil.write_file (d, live) cur
    (shutil.remove_file (d, bak)
       (shutil.write_file (d, live) new
          (shutil.write_file (d, bak) cur (shutil.remove_file (d, live) f))))
  = f.
Proof.
  intros Hne Hlive Hbak. unfold file_at in Hlive, Hbak. simpl in Hlive, Hbak.
  destruct (f !! d) as [files|] eqn:Hd; [|discriminate]. simpl in Hlive, Hbak.
  rewrite (remove_file_insert f d live files Hd).
  erewrite (write_file_insert _ d bak cur) by apply lookup_insert_eq.
  rewrite insert_insert_eq.
  erewrite (write_file_insert _ d live new) by apply lookup_insert_eq.
  rewrite insert_insert_eq.
  erewrite (remove_file_insert _ d bak) by apply lookup_insert_eq.
  rewrite insert_insert_eq.
  erewrite (write_file_insert _ d live cur) by apply lookup_insert_eq.
  rewrite insert_insert_eq.
  apply insert_id. rewrite Hd. f_equal. apply map_eq. intros k.
  destruct (decide (k = live)) as [->|Hk1].
  - now rewrite lookup_insert_eq.
  - rewrite lookup_insert_ne by congruence.
    destruct (decide (k = bak)) as [->|Hk2].
    + now rewrite lookup_delete_eq.
    + rewrite lookup_delete_ne, lookup_insert_ne, lookup_insert_ne, lookup_delete_ne
        by congruence.
      reflexivity.
Qed.

(** X17: a replace that makes the first backup of a live artifact of one
    line, followed by a restore that finds an artifact of the same basename
    and version, gives back the file system from before the replace: the
    live name holds its former content and there is no backup. (The build
    directory is not the jars directory.) *)
Theorem restore_after_replace_is_identity
    (HOME cache_dir build_dir package project : string) (force : bool)
    (w w1 w2 : World) (latest_jar current_jar : JarFile.t) (cur : string) :
  listdir_consistent w ->
  get_latest_build_jar build_dir w = (Ok latest_jar, w1) ->
  find_latest_jar HOME package project w1 = (Ok current_jar, w2) ->
  single_line (chars (JarFile.filename current_jar)) = true ->
  JarFile.extension current_jar = ".jar" ->
  file_at (fs w) (destination cache_dir package project,
                  JarFile.construct_filename current_jar) = Some cur ->
  file_at (fs w) (destination cache_dir package project,
                  JarFile.construct_backup_filename current_jar) = None ->
  build_dir <> destination cache_dir package project ->
  exists w',
    create_backup_and_replace HOME cache_dir build_dir package project force w
    = (Ok tt, w')
    /\ forall (v v1 : World) (latest2 : JarFile.t),
         fs v = fs w' ->
         find_latest_jar HOME package project v = (Ok latest2, v1) ->
         JarFile.basename latest2 = JarFile.basename current_jar ->
         JarFile.version latest2 = JarFile.version current_jar ->
         exists v',
           restore_latest_backup HOME cache_dir package project v = (Ok tt, v')
           /\ fs v' = fs w.
Proof.
  intros Hcons Hbuild Hfind Hline Hext Hcur Hnobak Hdirs.
  destruct (live_artifact_names current_jar (find_latest_jar_parsed _ _ _ _ _ _ Hfind)
              Hline Hext) as [Hlive Hbak].
  pose proof Hcur as Hcur'. rewrite <- Hlive in Hcur'.
  destruct (replace_moves_then_copies _ _ _ _ _ force _ _ _ _ _ _ Hcons Hbuild Hfind
              Hcur' (or_introl Hnobak) Hdirs) as (new & w' & Hnew & Hrun & Hfs).
  rewrite Hbak, Hlive in Hfs.
  set (dest := destination cache_dir package project) in *.
  exists w'. split; [exact Hrun|].
  intros v v1 latest2 Hv Hfind2 Hb2 Hv2.
  destruct (find_latest_jar_frame _ _ _ _ _ _ Hfind2) as [Hfs2 _].
  assert (Hlive2 : JarFile.construct_filename latest2
                   = JarFile.construct_filename current_jar).
  { unfold JarFile.construct_filename. now rewrite Hb2, Hv2. }
  assert (Hbak2 : JarFile.construct_backup_filename latest2
                  = JarFile.construct_backup_filename current_jar).
  { unfold JarFile.construct_backup_filename. now rewrite Hb2, Hv2. }
  assert (Hne : (dest, JarFile.construct_filename current_jar)
                <> (dest, JarFile.construct_backup_filename current_jar)).
  { intros [= H]. now apply live_name_not_backup_name in H. }
  assert (Hhas : file_at (fs v1) (dest, JarFile.construct_backup_filename latest2)
                 = Some cur).
  { rewrite Hfs2, Hv, Hfs, Hbak2. rewrite file_at_write_ne by exact Hne.
    apply file_at_write_eq. simpl. apply remove_file_dir.
    apply (file_at_dir _ _ _ Hcur). }
  destruct (restore_from_backup_present latest2 dest v1 cur Hhas) as [out Hres].
  eexists. split.
  { unfold restore_latest_backup, mbind, M_bind. rewrite Hfind2.
    fold (destination cache_dir package project). fold dest. exact Hres. }
  simpl. rewrite Hfs2, Hv, Hfs, Hlive2, Hbak2.
  apply restore_undoes_replace; [|exact Hcur | exact Hnobak].
  intros H. now apply live_name_not_backup_name in H.
Qed.

Lemma restore_after_replace_is_identity_witness :
  exists w' v',
    create_backup_and_replace home (IVY_CACHE home) build "org.example" "foo" false
      world_build = (Ok tt, w')
    /\ fs world_replaced = fs w'
    /\ restore_latest_backup home (IVY_CACHE home) "org.example" "foo" world_replaced
       = (Ok tt, v')
    /\ fs v' = fs world_build.
Proof.
  destruct (restore_after_replace_is_identity home (IVY_CACHE home) build
              "org.example" "foo" false world_build
              (snd (get_latest_build_jar build world_build))
              (snd (find_latest_jar home "org.example" "foo"
                      (snd (get_latest_build_jar build world_build))))
              jar_foo_1_3 jar_foo_1_2 "old")
    as (w' & Hrun & Hrestore).
  - apply world_of_consistent. apply (bool_decide_unpack _). vm_compute. exact I.
  - vm_compute. reflexivity.
  - vm_compute. reflexivity.
  - reflexivity.
  - reflexivity.
  - vm_compute. reflexivity.
  - vm_compute. reflexivity.
  - vm_compute. intros H. discriminate H.
  - assert (Hfs : fs world_replaced = fs w').
    { assert (H : fs (snd (create_backup_and_replace home (IVY_CACHE home) build
                             "org.example" "foo" false world_build)) = fs w')
        by now rewrite Hrun.
      rewrite <- H. vm_compute. reflexivity. }
    destruct (Hrestore world_replaced
                (snd (find_latest_jar home "org.example" "foo" world_replaced))
                jar_foo_1_2 Hfs)
      as (v' & Hres & Hback); try (vm_compute; reflexivity).
    exists w', v'. repeat split; assumption.
Defined.

(** X18: a restore needs the backup only. When the live name holds no file
    (the state in which a replace leaves the slot when its copy fails), the
    restore succeeds: it creates the live file with the content of the
    backup, removes the backup, and changes no other file. *)
Theorem restore_without_live_file
    (HOME cache_dir package project : string) (w w1 : World) (latest_jar : JarFile.t)
    (bak : string) :
  find_latest_jar HOME package project w = (Ok latest_jar, w1) ->
  file_at (fs w) (destination cache_dir package project,
                  JarFile.construct_filename latest_jar) = None ->
  file_at (fs w) (destination cache_dir package project,
                  JarFile.construct_backup_filename latest_jar) = Some bak ->
  exists w',
    restore_latest_backup HOME cache_dir package project w = (Ok tt, w')
    /\ file_at (fs w') (destination cache_dir package project,
                        JarFile.construct_filename latest_jar) = Some bak
    /\ file_at (fs w') (destination cache_dir package project,
                        JarFile.construct_backup_filename latest_jar) = None
    /\ (forall p,
          p <> (destination cache_dir package project,
                JarFile.construct_filename latest_jar) ->
          p <> (destination cache_dir package project,
                JarFile.construct_backup_filename latest_jar) ->
          file_at (fs w') p = file_at (fs w) p).
Proof.
  intros Hfind _ Hbak.
  destruct (find_latest_jar_frame _ _ _ _ _ _ Hfind) as [Hfs Hord].
  set (dest := destination cache_dir package project) in *.
  assert (Hbak1 : file_at (fs w1) (dest, JarFile.construct_backup_filename latest_jar)
                  = Some bak) by now rewrite Hfs.
  destruct (restore_from_backup_present latest_jar dest w1 bak Hbak1) as [out Hrun].
  eexists. split.
  { unfold restore_latest_backup, mbind, M_bind. rewrite Hfind.
    fold (destination cache_dir package project). fold dest. exact Hrun. }
  simpl. rewrite Hfs.
  assert (Hne : (dest, JarFile.construct_filename latest_jar)
                <> (dest, JarFile.construct_backup_filename latest_jar)).
  { intros [= H]. now apply live_name_not_backup_name in H. }
  split; [|split].
  - apply file_at_write_eq. simpl. apply remove_file_dir. apply (file_at_dir _ _ _ Hbak).
  - rewrite file_at_write_ne by exact Hne. apply file_at_remove_eq.
  - intros p Hp1 Hp2. rewrite file_at_write_ne by congruence.
    apply file_at_remove_ne. congruence.
Qed.

Lemma restore_without_live_file_witness :
  exists w',
    restore_latest_backup home (IVY_CACHE home) "org.example" "foo" world_backup_only
    = (Ok tt, w')
    /\ file_at (fs w') (default_slot, "foo-1.2.jar") = Some "old"
    /\ file_at (fs w') (default_slot, "foo-1.2.jar.bak") = None.
Proof.
  destruct (restore_without_live_file home (IVY_CACHE home) "org.example" "foo"
              world_backup_only
              (snd (find_latest_jar home "org.example" "foo" world_backup_only))
              jar_foo_1_2_bak "old")
    as (w' & Hrun & Hlive & Hbak & _).
  - vm_compute. reflexivity.
  - vm_compute. reflexivity.
  - vm_compute. reflexivity.
  - exists w'. repeat split; assumption.
Defined.

(** ** The entry point *)

(** X19: when the cache root or the build directory is not a directory,
    the script prints one line that names it and exits with status 1 before
    any scan, in replace mode and in restore mode alike (a restore does not
    use the build directory, and still needs it); no file changes. *)
Theorem main_exits_on_missing_directory
    (HOME : string) (expanduser : string -> string) (args : Args.t) (w : World) :
  fs w !! expanduser (Args.cache args) = None
  \/ fs w !! expanduser (Args.build args) = None ->
  exists d,
    (d = expanduser (Args.cache args) \/ d = expanduser (Args.build args))
    /\ fs w !! d = None
    /\ main HOME expanduser args w
       = (Raise (SystemExit 1),
          with_stdout w (stdout w ++ ["messageDirectory -> '" +:+ d +:+ "' not found."])).
Proof.
  intros Hmissing.
  unfold main, check_files_and_directories, is_directory, mbind, M_bind, mret, M_ret,
    os.path_isdir, print, exit, raise, with_stdout.
  destruct (fs w !! expanduser (Args.cache args)) as [files|] eqn:Hc.
  - destruct Hmissing as [H|Hb]; [discriminate|].
    exists (expanduser (Args.build args)). split; [now right|]. split; [exact Hb|].
    rewrite bool_decide_eq_true_2 by eauto. simpl.
    rewrite Hb. rewrite bool_decide_eq_false_2 by (intros [x Hx]; discriminate Hx).
    reflexivity.
  - exists (expanduser (Args.cache args)). split; [now left|]. split; [exact Hc|].
    rewrite bool_decide_eq_false_2 by (intros [x Hx]; discriminate Hx).
    reflexivity.
Qed.

Lemma main_exits_on_missing_directory_witness :
  exists d,
    (d = Args.cache args_default \/ d = Args.build args_default)
    /\ fs world_live_backup !! d = None
    /\ main home (fun path => path) args_default world_live_backup
       = (Raise (SystemExit 1),
          with_stdout world_live_backup
            (stdout world_live_backup
             ++ ["messageDirectory -> '" +:+ d +:+ "' not found."])).
Proof.
  apply (main_exits_on_missing_directory home (fun path => path) args_default
           world_live_backup).
  right. vm_compute. reflexivity.
Defined.

(** X20: the backup step comes before the copy and the copy reads its
    source after it. When the build directory is the jars directory and the
    latest build is the file of the current artifact, a replace that makes
    a backup moves that file away and then fails to copy it: it raises
    FileNotFoundError, and the slot is left with the backup and without the
    live file. *)
Theorem replace_fails_after_backup_when_build_is_current
    (HOME cache_dir build_dir package project : string) (force : bool)
    (w w1 w2 : World) (latest_jar current_jar : JarFile.t) (cur : string) :
  get_latest_build_jar build_dir w = (Ok latest_jar, w1) ->
  find_latest_jar HOME package project w1 = (Ok current_jar, w2) ->
  build_dir = destination cache_dir package project ->
  JarFile.filename latest_jar = JarFile.filename current_jar ->
  file_at (fs w) (destination cache_dir package project, JarFile.filename current_jar)
  = Some cur ->
  file_at (fs w) (destination cache_dir package project,
                  JarFile.construct_backup_filename current_jar) = None
  \/ force = true ->
  exists w',
    create_backup_and_replace HOME cache_dir build_dir package project force w
    = (Raise FileNotFoundError, w')
    /\ file_at (fs w') (destination cache_dir package project,
                        JarFile.filename current_jar) = None
    /\ file_at (fs w') (destination cache_dir package project,
                        JarFile.filename current_jar +:+ ".bak") = Some cur.
Proof.
  intros Hbuild Hfind Hdirs Hsame Hcur Hcase.
  set (dest := destination cache_dir package project) in *.
  destruct (get_latest_build_jar_frame _ _ _ _ Hbuild) as [Hfs1 _].
  destruct (find_latest_jar_frame _ _ _ _ _ _ Hfind) as [Hfs2 _].
  destruct (create_backup_move current_jar dest force w2 cur) as [out1 Hmove].
  { rewrite Hfs2, Hfs1. exact Hcase. }
  { now rewrite Hfs2, Hfs1. }
  assert (Hne : (dest, JarFile.filename current_jar +:+ ".bak")
                <> (dest, JarFile.filename current_jar)).
  { intros [= H]. symmetry in H. now apply name_not_bak_suffix in H. }
  eexists. split.
  { rewrite (create_backup_and_replace_eq _ _ _ _ _ _ _ _ _ _ _ Hbuild Hfind).
    fold dest. rewrite Hmove.
    unfold JarFile.copy, mbind, M_bind, print, shutil.copy. simpl.
    rewrite Hdirs, Hsame.
    rewrite file_at_write_ne by exact Hne. rewrite file_at_remove_eq. reflexivity. }
  simpl. rewrite Hfs2, Hfs1. split.
  - rewrite file_at_write_ne by exact Hne. apply file_at_remove_eq.
  - apply file_at_write_eq. simpl. apply remove_file_dir. apply (file_at_dir _ _ _ Hcur).
Qed.

Lemma replace_fails_after_backup_when_build_is_current_witness :
  exists w',
    create_backup_and_replace home (IVY_CACHE home) default_slot "org.example" "foo"
      false world_live = (Raise FileNotFoundError, w')
    /\ file_at (fs w') (default_slot, "foo-1.2.jar") = None
    /\ file_at (fs w') (default_slot, "foo-1.2.jar.bak") = Some "old".
Proof.
  apply (replace_fails_after_backup_when_build_is_current home (IVY_CACHE home)
           default_slot "org.example" "foo" false world_live
           (snd (get_latest_build_jar default_slot world_live))
           (snd (find_latest_jar home "org.example" "foo"
                   (snd (get_latest_build_jar default_slot world_live))))
           jar_foo_1_2 jar_foo_1_2 "old").
  - vm_compute. reflexivity.
  - vm_compute. reflexivity.
  - reflexivity.
  - reflexivity.
  - vm_compute. reflexivity.
  - left. vm_compute. reflexivity.
Defined.

(** ** Scans that find nothing *)

(** X21: when a directory that is scanned exists and none of its names
    gives a candidate, the selection raises ValueError: a replace ends there
    with the line of the search as its only output, a restore ends there
    too, neither reaches an [exit], and no file changes. *)
Theorem scan_without_candidate_raises
    (HOME cache_dir build_dir package project : string) (force : bool) (w : World) :
  (is_Some (fs w !! build_dir) ->
   build_candidates (listdir_order w build_dir) = [] ->
   create_backup_and_replace HOME cache_dir build_dir package project force w
   = (Raise ValueError,
      with_stdout w (stdout w ++ ["Searching for latest jar in: " +:+ build_dir])))
  /\ (is_Some (fs w !! scan_dir HOME package project) ->
      cache_candidates (listdir_order w (scan_dir HOME package project)) = [] ->
      fst (restore_latest_backup HOME cache_dir package project w) = Raise ValueError
      /\ fs (snd (restore_latest_backup HOME cache_dir package project w)) = fs w).
Proof.
  split.
  - intros [files Hdir] Hnone.
    unfold create_backup_and_replace, mbind, M_bind.
    rewrite get_latest_build_jar_eq, Hdir, Hnone. reflexivity.
  - intros [files Hdir] Hnone.
    unfold restore_latest_backup, mbind, M_bind.
    destruct (find_latest_jar_eq HOME package project w) as [out ->].
    rewrite Hdir, Hnone. simpl. split; reflexivity.
Qed.

(** ** The exceptions of the operations *)












Lemma scan_without_candidate_raises_witness :
  create_backup_and_replace home (IVY_CACHE home) build "org.example" "foo" false
    world_empty_build
  = (Raise ValueError,
     with_stdout world_empty_build
       (stdout world_empty_build ++ ["Searching for latest jar in: " +:+ build]))
  /\ fst (restore_latest_backup home (IVY_CACHE home) "org.example" "foo"
            world_empty_cache) = Raise ValueError
  /\ fs (snd (restore_latest_backup home (IVY_CACHE home) "org.example" "foo"
                world_empty_cache)) = fs world_empty_cache.
Proof.
  split.
  - apply (proj1 (scan_without_candidate_raises home (IVY_CACHE home) build
                    "org.example" "foo" false world_empty_build)).
    + vm_compute. eauto.
    + vm_compute. reflexivity.
  - apply (proj2 (scan_without_candidate_raises home (IVY_CACHE home) build
                    "org.example" "foo" false world_empty_cache)).
    + vm_compute. eauto.
    + vm_compute. reflexivity.
Defined.

